(** * kroki2md: diagram files to Kroki links in a markdown document

    A shallow embedding of [src/kroki2md/kroki2md.py] and the properties of
    its encode / substitute pair.

    Conventions of the embedding.
    - A Python [str] is a [string]: the text held as its UTF-8 bytes, so that
      [data.encode("utf-8")] is [list_byte_of_string].  Concatenation, the
      [in] test against a needle that starts and ends with an ASCII character
      and [split] on an ASCII separator agree on both views of a text.
    - A Python [bytes] is a [list byte]; a Python [int] is a [Z].
    - A [dict] is the list of its items in iteration order (insertion order),
      with unique keys.
    - Exceptions, the file system and the console are explicit: a computation
      is a function from a [world] to a [result] and the world it leaves.
    - The file system maps a path to the text that [read()] returns from
      it, or to nothing where [open] fails.
    - [termcolor.colored] and [zlib.compress] belong to libraries outside the
      repository; they are the fields of the class [Libraries].  The
      functions of Python's [base64] that the program calls are written out
      after RFC 4648. *)

From Stdlib Require Import Strings.String Strings.Ascii Strings.Byte.
From Stdlib Require Import List ZArith NArith Lia Bool DecimalString.
Import ListNotations.
Open Scope string_scope.

(* ================================================================= *)
(** * Part I: definitions *)

(* ----------------------------------------------------------------- *)
(** ** Python strings *)

Module PyStr.

Definition LF : ascii := "010"%char.
Definition TAB : ascii := "009"%char.

(** The one-character strings ["\n"] and ["\t"]. *)
Definition nl : string := String LF "".
Definition tab : string := String TAB "".

(** [needle in hay]. *)
Fixpoint contains (needle hay : string) : bool :=
  prefix needle hay ||
  match hay with
  | "" => false
  | String _ hay' => contains needle hay'
  end.

(** [c in s] for a single character. *)
Fixpoint has_char (c : ascii) (s : string) : bool :=
  match s with
  | "" => false
  | String x s' => Ascii.eqb x c || has_char c s'
  end.

(** [s.split(sep)] for a one-character separator, the only form the program
    uses (["/"] and ["."]).  The result is never empty. *)
Fixpoint split (sep : ascii) (s : string) : list string :=
  match s with
  | "" => [""]
  | String c s' =>
      if Ascii.eqb c sep then "" :: split sep s'
      else match split sep s' with
           | [] => [String c ""]
           | x :: xs => String c x :: xs
           end
  end.

(** [l[-1]] on the result of a [split], which has at least one element. *)
Definition last_item (l : list string) : string := last l "".

(** [f.readlines()] on the text of a file: the lines with their terminators. *)
Fixpoint readlines (text : string) : list string :=
  match text with
  | "" => []
  | String c text' =>
      if Ascii.eqb c LF then nl :: readlines text'
      else match readlines text' with
           | [] => [String c ""]
           | l :: ls => String c l :: ls
           end
  end.

(** What [f.writelines(lines)] leaves in a file opened with ["w"]. *)
Definition writelines (lines : list string) : string := String.concat "" lines.

(** [str(n)] for an [int]. *)
Definition str (n : Z) : string := NilZero.string_of_int (Z.to_int n).

End PyStr.
Import PyStr.

(* ----------------------------------------------------------------- *)
(** ** Dictionaries with string keys and values *)

Definition dict : Type := list (string * string).

Fixpoint dict_get (k : string) (d : dict) : option string :=
  match d with
  | [] => None
  | (k', v) :: d' => if k' =? k then Some v else dict_get k d'
  end.

(** [d[k] = v]: an existing key keeps its position, a new key goes last. *)
Fixpoint dict_set (k v : string) (d : dict) : dict :=
  match d with
  | [] => [(k, v)]
  | (k', v') :: d' =>
      if k' =? k then (k', v) :: d' else (k', v') :: dict_set k v d'
  end.

(** [d.items()] and [d.keys()], in iteration order. *)
Definition dict_items (d : dict) : list (string * string) := d.
Definition dict_keys (d : dict) : list string := map fst d.

(* ----------------------------------------------------------------- *)
(** ** Exceptions, the world and the monad of computations *)

Inductive exn : Type :=
| OSError (path : string)          (* open() failed *)
| UnboundLocalError (name : string)
| KeyError (key : string)
| ValueError
| UnicodeDecodeError.

Inductive result (A : Type) : Type :=
| Ok (a : A)
| Raise (e : exn).
Arguments Ok {A} a.
Arguments Raise {A} e.

(** A file is its text, as [read()] returns it, and whether it may be opened
    for writing. *)
Record file : Type := { f_text : string; f_writable : bool }.

Record world : Type := {
  fs : string -> option file;      (* path to file *)
  stdout : list string             (* one item per call of [print] *)
}.

Definition M (A : Type) : Type := world -> result A * world.

Definition ret {A} (a : A) : M A := fun w => (Ok a, w).

Definition raise {A} (e : exn) : M A := fun w => (Raise e, w).

Definition bind {A B} (m : M A) (k : A -> M B) : M B :=
  fun w =>
    match m w with
    | (Ok a, w') => k a w'
    | (Raise e, w') => (Raise e, w')
    end.

Notation "x <- m ;; k" := (bind m (fun x => k))
  (at level 61, m at next level, right associativity).
Notation "m ;; k" := (bind m (fun _ => k))
  (at level 61, right associativity).

Definition lift {A} (r : result A) : M A := fun w => (r, w).

Definition when (b : bool) (m : M unit) : M unit := if b then m else ret tt.

(** [print(s)]. *)
Definition print (s : string) : M unit :=
  fun w => (Ok tt, {| fs := fs w; stdout := (stdout w ++ [s])%list |}).

(** [with open(path, "r") as f: f.read()]. *)
Definition read_file (path : string) : M string :=
  fun w =>
    match fs w path with
    | Some f => (Ok (f_text f), w)
    | None => (Raise (OSError path), w)
    end.

Definition fs_update (path : string) (f : file) (files : string -> option file)
  : string -> option file :=
  fun p => if p =? path then Some f else files p.

(** [with open(path, "w") as f: f.writelines(lines)]: the file is replaced
    as a whole, or [open] fails and nothing is written. *)
Definition write_file (path : string) (lines : list string) : M unit :=
  fun w =>
    let new := {| f_text := writelines lines; f_writable := true |} in
    match fs w path with
    | Some {| f_text := _; f_writable := false |} => (Raise (OSError path), w)
    | _ => (Ok tt, {| fs := fs_update path new (fs w); stdout := stdout w |})
    end.

(** The value and the final world of a computation. *)
Definition value_of {A} (m : M A) (w : world) : result A := fst (m w).
Definition world_after {A} (m : M A) (w : world) : world := snd (m w).

(* ----------------------------------------------------------------- *)
(** ** [str.format] with keyword arguments *)

(** Only the replacement field [{name}] is interpreted, which is all the
    two templates of the program use.  [field] is the name being read
    between the braces, if any. *)
Fixpoint str_format_go (tpl : string) (field : option string)
    (kwargs : list (string * string)) : result string :=
  match tpl, field with
  | "", None => Ok ""
  | "", Some _ => Raise ValueError
  | String c tpl', None =>
      if Ascii.eqb c "{" then str_format_go tpl' (Some "") kwargs
      else if Ascii.eqb c "}" then Raise ValueError
      else match str_format_go tpl' None kwargs with
           | Ok r => Ok (String c r)
           | Raise e => Raise e
           end
  | String c tpl', Some name =>
      if Ascii.eqb c "}" then
        match dict_get name kwargs with
        | None => Raise (KeyError name)
        | Some v =>
            match str_format_go tpl' None kwargs with
            | Ok r => Ok (v ++ r)
            | Raise e => Raise e
            end
        end
      else str_format_go tpl' (Some (name ++ String c "")) kwargs
  end.

Definition str_format (tpl : string) (kwargs : list (string * string))
  : M string :=
  lift (str_format_go tpl None kwargs).

(* ----------------------------------------------------------------- *)
(** ** [bytes.decode("ascii")] and the [base64] module *)

(** [b.decode("ascii")]: every byte has to be below 128. *)
Definition decode_ascii (b : list byte) : result string :=
  if forallb (fun x => (Byte.to_N x <? 128)%N) b
  then Ok (string_of_list_byte b)
  else Raise UnicodeDecodeError.

Module Base64.

Definition alphabet : string :=
  "ABCDEFGHIJKLMNOPQRSTUVWXYZabcdefghijklmnopqrstuvwxyz0123456789+/".

Definition pad : byte := "="%byte.

(** The character of a six-bit group. *)
Definition digit (n : N) : byte :=
  match get (N.to_nat n) alphabet with
  | Some c => byte_of_ascii c
  | None => pad
  end.

Fixpoint position (c : ascii) (s : string) (i : N) : option N :=
  match s with
  | "" => None
  | String x s' => if Ascii.eqb x c then Some i else position c s' (N.succ i)
  end.

(** The six-bit group of a character, if it is one of the alphabet. *)
Definition index (c : byte) : option N := position (ascii_of_byte c) alphabet 0.

Definition byte_of_N (n : N) : byte :=
  match Byte.of_N (n mod 256) with
  | Some b => b
  | None => "000"%byte
  end.

(** [base64.b64encode(s)]: three bytes give four characters; one or two
    bytes left at the end are padded with [=]. *)
Fixpoint b64encode (s : list byte) : list byte :=
  match s with
  | [] => []
  | [a] =>
      let x := Byte.to_N a in
      [digit (x / 4); digit (x mod 4 * 16); pad; pad]
  | [a; b] =>
      let x := Byte.to_N a in
      let y := Byte.to_N b in
      [digit (x / 4); digit (x mod 4 * 16 + y / 16); digit (y mod 16 * 4); pad]
  | a :: b :: c :: s' =>
      let x := Byte.to_N a in
      let y := Byte.to_N b in
      let z := Byte.to_N c in
      digit (x / 4) :: digit (x mod 4 * 16 + y / 16)
        :: digit (y mod 16 * 4 + z / 64) :: digit (z mod 64)
        :: b64encode s'
  end%N.

(** [bytes.translate] with the table that sends [+/] to [-_]. *)
Definition urlsafe_encode_translation (c : byte) : byte :=
  if Byte.eqb c "+" then "-"%byte
  else if Byte.eqb c "/" then "_"%byte
  else c.

(** [base64.urlsafe_b64encode(s)]. *)
Definition urlsafe_b64encode (s : list byte) : list byte :=
  map urlsafe_encode_translation (b64encode s).

(** The decoder of RFC 4648: groups of four characters, padding only in
    the last group. *)
Fixpoint b64decode (s : list byte) : option (list byte) :=
  match s with
  | [] => Some []
  | c1 :: c2 :: c3 :: c4 :: s' =>
      if Byte.eqb c4 pad then
        match s' with
        | [] =>
            if Byte.eqb c3 pad then
              match index c1, index c2 with
              | Some i1, Some i2 => Some [byte_of_N (i1 * 4 + i2 / 16)]
              | _, _ => None
              end
            else
              match index c1, index c2, index c3 with
              | Some i1, Some i2, Some i3 =>
                  Some [byte_of_N (i1 * 4 + i2 / 16);
                        byte_of_N (i2 mod 16 * 16 + i3 / 4)]
              | _, _, _ => None
              end
        | _ :: _ => None
        end
      else
        match index c1, index c2, index c3, index c4, b64decode s' with
        | Some i1, Some i2, Some i3, Some i4, Some bs =>
            Some (byte_of_N (i1 * 4 + i2 / 16)
                    :: byte_of_N (i2 mod 16 * 16 + i3 / 4)
                    :: byte_of_N (i3 mod 4 * 64 + i4) :: bs)
        | _, _, _, _, _ => None
        end
  | _ => None
  end%N.

(** A byte that may stand in a path segment of a link: ASCII, and not
    the separator [/]. *)
Definition url_safe (c : byte) : bool :=
  (Byte.to_N c <? 128)%N && negb (Byte.eqb c "/").

(** The URL-safe alphabet, and the bytes of an encoding: a character of
    the alphabet or the padding character. *)
Definition urlsafe_alphabet : string :=
  "ABCDEFGHIJKLMNOPQRSTUVWXYZabcdefghijklmnopqrstuvwxyz0123456789-_".

Definition in_urlsafe_alphabet (c : byte) : bool :=
  has_char (ascii_of_byte c) urlsafe_alphabet || Byte.eqb c pad.

Definition urlsafe_decode_translation (c : byte) : byte :=
  if Byte.eqb c "-" then "+"%byte
  else if Byte.eqb c "_" then "/"%byte
  else c.

(** Decoding with the URL-safe alphabet. *)
Definition urlsafe_b64decode (s : list byte) : option (list byte) :=
  b64decode (map urlsafe_decode_translation s).

End Base64.

(* ----------------------------------------------------------------- *)
(** ** Functions of libraries outside the repository *)

Class Libraries : Type := {
  (** [termcolor.colored(text, color)] *)
  colored : string -> string -> string;
  (** [zlib.compress(data, level)] *)
  zlib_compress : list byte -> Z -> list byte
}.

(* ----------------------------------------------------------------- *)
(** ** The program *)

Section Program.

Context {libraries : Libraries}.

Definition korki_url_format : string :=
  "https://kroki.io/{type}/{format}/{data}".

Definition markdown_format : string := "![{file_name}]({url})" ++ nl.

Definition diagram_types : dict := [(".mmd", "mermaid")].

Definition kroki_output_formats : list string := ["svg"].

Definition convert_file (file_name ftype format : string) (verbosity : Z)
  : M string :=
  data <- read_file file_name ;;
  encoded <- lift (decode_ascii
                     (Base64.urlsafe_b64encode
                        (zlib_compress (list_byte_of_string data) 9))) ;;
  when (verbosity >=? 2)%Z
    (print (colored (tab ++ "Processed file: " ++ file_name) "green")) ;;
  str_format korki_url_format
    [("type", ftype); ("format", format); ("data", encoded)].

(** The loop of [convert] over [file_names], with the local variables
    [replacements] and [warnings] as they stand before the iteration.  The
    test [ftype in diagram_types] and the lookup [diagram_types[ftype]] are
    the one [dict_get]. *)
Fixpoint convert_for (file_names : list string) (format : string)
    (verbosity : Z) (replacements : dict) (warnings : Z) : M (dict * Z) :=
  match file_names with
  | [] => ret (replacements, warnings)
  | file_name :: file_names' =>
      let fname := last_item (split "/" file_name) in
      let ftype := "." ++ last_item (split "." fname) in
      match dict_get ftype diagram_types with
      | Some language =>
          url <- convert_file file_name language format verbosity ;;
          convert_for file_names' format verbosity
            (dict_set fname url replacements) warnings
      | None =>
          let warnings := (warnings + 1)%Z in
          let msg :=
            if (verbosity >=? 1)%Z
            then tab ++ "Skipping " ++ file_name
                   ++ " as it is not a supported diagram file"
            else "Skipping " ++ file_name
                   ++ " as it is not a supported diagram file" in
          print (colored msg "yellow") ;;
          convert_for file_names' format verbosity replacements warnings
      end
  end.

Definition convert (file_names : list string) (format : string)
    (verbosity : Z) : M dict :=
  when (verbosity >=? 1)%Z (print (colored "Calculating conversions" "blue")) ;;
  rw <- convert_for file_names format verbosity [] 0%Z ;;
  let '(replacements, warnings) := rw in
  (if (verbosity >=? 1)%Z && (warnings =? 0)%Z then
     print (colored "Conversion completed" "green") ;; print ""
   else if (verbosity >=? 1)%Z && (warnings >? 0)%Z then
     print (colored "Conversion completed with warnings" "yellow") ;; print ""
   else if (warnings >? 0)%Z then print ""
   else ret tt) ;;
  ret replacements.

(** The loop of [check_line] over the items of the mapping; [req] is the
    local variable of that name, [None] while it is unbound.  A match
    leaves the loop ([break]). *)
Fixpoint check_line_for (items : list (string * string)) (line : string)
    (index verbosity : Z) (req : option string) : M (option string) :=
  match items with
  | [] => ret req
  | (key, value) :: items' =>
      if contains ("![" ++ key ++ "]") line then
        req' <- str_format markdown_format
                  [("file_name", key); ("url", value)] ;;
        when (verbosity >=? 2)%Z
          (print (colored ("@Line " ++ str (index + 1) ++ ":") "blue")) ;;
        when (verbosity >=? 3)%Z
          (print (colored ("-- " ++ line) "red") ;;
           print (colored ("++ " ++ req') "green")) ;;
        ret (Some req')
      else check_line_for items' line index verbosity (Some line)
  end.

Definition check_line (line : string) (index : Z) (replacements : dict)
    (verbosity : Z) : M string :=
  req <- check_line_for (dict_items replacements) line index verbosity None ;;
  match req with
  | Some r => ret r
  | None => raise (UnboundLocalError "req")
  end.

(** The loop of [update_markdown_file] over [enumerate(data)]; [final] is
    the list built so far and [index] the number of the next line. *)
Fixpoint update_for (data : list string) (index : Z) (replacements : dict)
    (verbosity : Z) (final : list string) : M (list string) :=
  match data with
  | [] => ret final
  | line :: data' =>
      req <- check_line line index replacements verbosity ;;
      print req ;;
      update_for data' (index + 1) replacements verbosity (final ++ [req])%list
  end.

Definition update_markdown_file (file_name : string) (replacements : dict)
    (dry_run : bool) (verbosity : Z) : M unit :=
  when (verbosity >=? 1)%Z
    (print (colored ("Finding Update Points in " ++ file_name ++ ":") "blue")) ;;
  text <- read_file file_name ;;
  final <- update_for (readlines text) 0 replacements verbosity [] ;;
  when (verbosity >=? 1)%Z
    (print (colored ("Found " ++ str (Z.of_nat (length replacements))
                       ++ " Update Points") "blue") ;;
     print "") ;;
  if negb dry_run then
    when (verbosity >=? 1)%Z
      (print (colored ("Updating " ++ file_name) "blue")) ;;
    write_file file_name final ;;
    when (verbosity >=? 1)%Z
      (print (colored ("Updated " ++ file_name) "green") ;; print "")
  else
    print (colored ("This was a dry run." ++ nl ++ tab
                      ++ "Please run the same command without '-d' flag")
             "yellow") ;;
    print "".

(** The value of [vars(parse())]. *)
Record arguments : Type := {
  arg_input : list string;
  arg_format : string;
  arg_dry_run : bool;
  arg_verbose : Z;
  arg_silent : bool;
  arg_output : string
}.

Definition str_bool (b : bool) : string := if b then "True" else "False".

Fixpoint print_inputs (input : list string) (index : Z) : M unit :=
  match input with
  | [] => ret tt
  | value :: input' =>
      print (colored (tab ++ tab ++ str index ++ ": " ++ value) "blue") ;;
      print_inputs input' (index + 1)
  end.

Definition print_configuration (dictargs : arguments) : M unit :=
  print (colored "Configuration Selected:" "blue") ;;
  print (colored (tab ++ "Input File(s):") "blue") ;;
  print_inputs (arg_input dictargs) 0 ;;
  print (colored (tab ++ "Output File: " ++ arg_output dictargs) "blue") ;;
  print (colored (tab ++ "Format: " ++ arg_format dictargs) "blue") ;;
  print (colored (tab ++ "Dry Run: " ++ str_bool (arg_dry_run dictargs)) "blue") ;;
  print (colored (tab ++ "Verbose: " ++ str (arg_verbose dictargs)) "blue") ;;
  print (colored (tab ++ "Silent: " ++ str_bool (arg_silent dictargs)) "blue") ;;
  print "".

(** [main], from the parsed arguments on. *)
Definition main (dictargs : arguments) : M unit :=
  let verbosity :=
    if arg_silent dictargs then (-1)%Z
    else if (arg_verbose dictargs =? 0)%Z then 1%Z
    else arg_verbose dictargs in
  when (verbosity >=? 1)%Z (print_configuration dictargs) ;;
  replacements <- convert (arg_input dictargs) (arg_format dictargs) verbosity ;;
  update_markdown_file (arg_output dictargs) replacements
    (arg_dry_run dictargs) verbosity.

End Program.

(* ----------------------------------------------------------------- *)
(** ** Notions used in the statements *)

(** [needle] is a substring of [hay]. *)
Definition occurs_in (needle hay : string) : Prop :=
  exists a b, hay = a ++ needle ++ b.

(** The placeholder [![name]] that [check_line] looks for. *)
Definition placeholder (name : string) : string := "![" ++ name ++ "]".

(** The base name and the extension that [convert] derives from a path:
    the expressions bound to [fname] and [ftype] in its loop. *)
Definition fname_of (file_name : string) : string :=
  last_item (split "/" file_name).

Definition ftype_of (fname : string) : string :=
  "." ++ last_item (split "." fname).

(** [ftype in diagram_types] for the extension of a path. *)
Definition recognized (file_name : string) : bool :=
  match dict_get (ftype_of (fname_of file_name)) diagram_types with
  | Some _ => true
  | None => false
  end.

(** A mapping entry whose placeholder occurs in the line. *)
Definition matches (line : string) (item : string * string) : bool :=
  contains (placeholder (fst item)) line.

(** The line that replaces a matched one. *)
Definition replacement_line (name link : string) : string :=
  "![" ++ name ++ "](" ++ link ++ ")" ++ nl.

(** The payload of a link: its last path segment. *)
Definition payload_of (link : string) : string :=
  last_item (split "/" link).

(** The elements of a list in the order of their first occurrence. *)
Fixpoint first_occurrences (l : list string) : list string :=
  match l with
  | [] => []
  | x :: l' => x :: filter (fun y => negb (y =? x)) (first_occurrences l')
  end.

(** What [convert_file] binds to [encoded] for a file of a given text. *)
Definition payload {libraries : Libraries} (text : string) : string :=
  string_of_list_byte
    (Base64.urlsafe_b64encode (zlib_compress (list_byte_of_string text) 9)).

(** The link that [convert_file] computes for a mermaid file, as a
    function of the files; the empty string stands where there is no file,
    which the statements rule out. *)
Definition link_of {libraries : Libraries} (files : string -> option file)
    (format file_name : string) : string :=
  match files file_name with
  | Some f => "https://kroki.io/mermaid/" ++ format ++ "/" ++ payload (f_text f)
  | None => ""
  end.

(** One iteration of the loop of [convert] on the mapping, given the link
    of each file. *)
Definition insert_link (link : string -> string) (replacements : dict)
    (file_name : string) : dict :=
  if recognized file_name
  then dict_set (fname_of file_name) (link file_name) replacements
  else replacements.

(** [x in l] for a list of strings. *)
Definition mem (x : string) (l : list string) : bool :=
  existsb (fun y => y =? x) l.

(** The file system holds a readable file at every recognized path of a
    list of inputs. *)
Definition inputs_readable (w : world) (file_names : list string) : Prop :=
  forall f, In f file_names -> recognized f = true -> fs w f <> None.

(** What the substitution pass emits for a line when the mapping is not
    empty: the replacement for the first matching entry in iteration
    order, or the line itself. *)
Definition rewritten_line (replacements : dict) (line : string) : string :=
  match find (matches line) (dict_items replacements) with
  | Some (name, link) => replacement_line name link
  | None => line
  end.

(** A computation that leaves every file as it is, whatever it returns
    or raises. *)
Definition keeps_files {A} (m : M A) : Prop :=
  forall w, fs (world_after m w) = fs w.

(** A computation whose value does not depend on the world it starts in. *)
Definition pure_value {A} (m : M A) (r : result A) : Prop :=
  forall w, value_of m w = r.

(* ----------------------------------------------------------------- *)
(** ** A world to run examples in *)

(** Colours switched off, and data kept as they are where [zlib] would
    compress them. *)
Definition example_libraries : Libraries :=
  {| colored := fun text _ => text;
     zlib_compress := fun data _ => data |}.

Definition example_file (text : string) : option file :=
  Some {| f_text := text; f_writable := true |}.

Definition example_fs (path : string) : option file :=
  if path =? "one/a.mmd" then example_file "graph TD; A-->B;"
  else if path =? "two/a.mmd" then example_file "graph LR; X-->Y;"
  else if path =? "b.mmd" then example_file "sequenceDiagram"
  else if path =? "mmd" then example_file "graph TD; C-->D;"
  else if path =? "README.md"
       then example_file ("# Title" ++ nl ++ "![b.mmd] and ![a.mmd]" ++ nl
                            ++ "last line")
  else None.

Definition example_world : world := {| fs := example_fs; stdout := [] |}.

(* ----------------------------------------------------------------- *)
(** ** Runs and what they print *)

(** A run that returns [a], keeps every file and prints [out]. *)
Definition returns_printing {A} (m : M A) (w : world) (a : A)
    (out : list string) : Prop :=
  exists w',
    m w = (Ok a, w') /\ fs w' = fs w /\ stdout w' = (stdout w ++ out)%list.

(** A run that raises [e], keeps every file and prints [out]. *)
Definition raises_printing {A} (m : M A) (w : world) (e : exn)
    (out : list string) : Prop :=
  exists w',
    m w = (Raise e, w') /\ fs w' = fs w /\ stdout w' = (stdout w ++ out)%list.

(** A computation that leaves every file but the one at [path] as it is. *)
Definition touches_only {A} (path : string) (m : M A) : Prop :=
  forall w p, p <> path -> fs (world_after m w) p = fs w p.

(** What [check_line] prints on a match that gives [req]. *)
Definition match_diagnostics {libraries : Libraries} (line : string)
    (index verbosity : Z) (req : string) : list string :=
  ((if (verbosity >=? 2)%Z
    then [colored ("@Line " ++ str (index + 1) ++ ":") "blue"] else [])
   ++ (if (verbosity >=? 3)%Z
       then [colored ("-- " ++ line) "red"; colored ("++ " ++ req) "green"]
       else []))%list.

(** What [check_line] prints for a line: the diagnostics of the first
    match, and nothing where no entry matches. *)
Definition line_diagnostics {libraries : Libraries} (replacements : dict)
    (line : string) (index verbosity : Z) : list string :=
  match find (matches line) (dict_items replacements) with
  | Some (name, link) =>
      match_diagnostics line index verbosity (replacement_line name link)
  | None => []
  end.

(** What the loop of [update_markdown_file] prints under a mapping that is
    not empty: for each line the diagnostics and then the rewritten line. *)
Fixpoint pass_output {libraries : Libraries} (replacements : dict)
    (verbosity index : Z) (data : list string) : list string :=
  match data with
  | [] => []
  | line :: data' =>
      (line_diagnostics replacements line index verbosity
         ++ rewritten_line replacements line
         :: pass_output replacements verbosity (index + 1) data')%list
  end.

(** The line that [convert] prints for a file it skips. *)
Definition skip_message {libraries : Libraries} (verbosity : Z)
    (file_name : string) : string :=
  colored
    (if (verbosity >=? 1)%Z
     then tab ++ "Skipping " ++ file_name
            ++ " as it is not a supported diagram file"
     else "Skipping " ++ file_name ++ " as it is not a supported diagram file")
    "yellow".

(** What the loop of [convert] prints for one file, and for all of them. *)
Definition file_output {libraries : Libraries} (verbosity : Z)
    (file_name : string) : list string :=
  if recognized file_name
  then if (verbosity >=? 2)%Z
       then [colored (tab ++ "Processed file: " ++ file_name) "green"]
       else []
  else [skip_message verbosity file_name].

Definition convert_output {libraries : Libraries} (verbosity : Z)
    (file_names : list string) : list string :=
  flat_map (file_output verbosity) file_names.

(** The notice that closes a dry run. *)
Definition dry_run_notice {libraries : Libraries} : string :=
  colored ("This was a dry run." ++ nl ++ tab
             ++ "Please run the same command without '-d' flag") "yellow".

(** The verbosity that [main] works with: -1 under [--silent], 1 where no
    [-v] was given, and the number of [-v] otherwise. *)
Definition verbosity_of (dictargs : arguments) : Z :=
  if arg_silent dictargs then (-1)%Z
  else if (arg_verbose dictargs =? 0)%Z then 1%Z
  else arg_verbose dictargs.

(** The example world with a document that may not be written. *)
Definition locked_world : world :=
  {| fs := fun path =>
             if path =? "locked.md"
             then Some {| f_text := "![a.mmd]" ++ nl; f_writable := false |}
             else example_fs path;
     stdout := [] |}.

(* ================================================================= *)
(** * Part II: properties *)

(* ----------------------------------------------------------------- *)
(** ** Strings *)

Module PyStrFacts.

Lemma append_nil_r (s : string) : s ++ "" = s.
Proof. induction s; simpl; congruence. Qed.

Lemma append_assoc (a b c : string) : (a ++ b) ++ c = a ++ b ++ c.
Proof. induction a; simpl; congruence. Qed.

Lemma prefix_spec (a b : string) :
  prefix a b = true <-> exists c, b = a ++ c.
Proof.
  revert b; induction a as [|x a IH]; intros b.
  - split; [intros _; now exists b | destruct b; reflexivity].
  - destruct b as [|y b]; simpl.
    + split; [discriminate | intros [c H]; discriminate].
    + destruct (ascii_dec x y) as [->|N].
      * rewrite IH. split; intros [c H]; exists c; congruence.
      * split; [discriminate | intros [c H]; congruence].
Qed.

Lemma contains_spec (needle hay : string) :
  contains needle hay = true <-> occurs_in needle hay.
Proof.
  unfold occurs_in. induction hay as [|c hay IH].
  - change (contains needle "") with (prefix needle "" || false).
    rewrite orb_false_r, prefix_spec. split.
    + intros [x H]. now exists "", x.
    + intros [a [b H]]. destruct a; [now exists b | discriminate].
  - change (contains needle (String c hay))
      with (prefix needle (String c hay) || contains needle hay).
    rewrite orb_true_iff, prefix_spec, IH. split.
    + intros [[x H] | [a [b H]]].
      * now exists "", x.
      * exists (String c a), b. simpl. congruence.
    + intros [a [b H]]. destruct a as [|y a]; simpl in H.
      * left. now exists b.
      * right. exists a, b. congruence.
Qed.

Lemma contains_false (needle hay : string) :
  contains needle hay = false <-> ~ occurs_in needle hay.
Proof.
  rewrite <- contains_spec. destruct (contains needle hay); split;
    congruence.
Qed.

Lemma split_not_nil (sep : ascii) (s : string) : split sep s <> [].
Proof.
  destruct s as [|c s]; simpl; [discriminate|].
  destruct (Ascii.eqb c sep); [discriminate|].
  destruct (split sep s); discriminate.
Qed.

Lemma split_no_sep (sep : ascii) (s : string) :
  has_char sep s = false -> split sep s = [s].
Proof.
  induction s as [|c s IH]; simpl; [reflexivity|].
  intros H. apply orb_false_elim in H as [Hc Hs].
  rewrite Hc, (IH Hs). reflexivity.
Qed.

Lemma last_app_r {A} (l1 l2 : list A) (d : A) :
  l2 <> [] -> last (l1 ++ l2)%list d = last l2 d.
Proof.
  intros H. induction l1 as [|x l1 IH]; [reflexivity|].
  simpl. rewrite IH. destruct (l1 ++ l2)%list eqn:E; [|reflexivity].
  apply app_eq_nil in E. tauto.
Qed.

(** Splitting a string that has a separator: the items after the last
    separator of the left part are those of the right part. *)
Lemma split_app_sep (sep : ascii) (a b : string) :
  exists l, l <> [] /\ split sep (a ++ String sep b) = (l ++ split sep b)%list.
Proof.
  induction a as [|c a [l [Hl IH]]]; simpl.
  - exists [""]. rewrite Ascii.eqb_refl. split; [discriminate | reflexivity].
  - destruct (Ascii.eqb c sep).
    + exists ("" :: l). rewrite IH. split; [discriminate | reflexivity].
    + rewrite IH. destruct l as [|x l]; [congruence|].
      exists (String c x :: l). split; [discriminate | reflexivity].
Qed.

Lemma last_split_app (sep : ascii) (a b : string) :
  last_item (split sep (a ++ String sep b)) = last_item (split sep b).
Proof.
  destruct (split_app_sep sep a b) as [l [_ ->]].
  apply last_app_r, split_not_nil.
Qed.

Lemma last_split_suffix (sep : ascii) (a b : string) :
  has_char sep b = false -> last_item (split sep (a ++ String sep b)) = b.
Proof.
  intros H. rewrite last_split_app, (split_no_sep _ _ H). reflexivity.
Qed.

Lemma concat_cons (x : string) (xs : list string) :
  String.concat "" (x :: xs) = x ++ String.concat "" xs.
Proof.
  destruct xs; simpl; [now rewrite append_nil_r | reflexivity].
Qed.

Lemma writelines_readlines (text : string) :
  writelines (readlines text) = text.
Proof.
  unfold writelines. induction text as [|c text IH]; [reflexivity|].
  simpl readlines. destruct (Ascii.eqb_spec c LF) as [->|N].
  - rewrite concat_cons, IH. reflexivity.
  - destruct (readlines text) as [|l ls].
    + simpl in *. now subst.
    + rewrite concat_cons in *. simpl. congruence.
Qed.

End PyStrFacts.
Import PyStrFacts.

(* ----------------------------------------------------------------- *)
(** ** Computations *)

Module MFacts.

Lemma bind_ok {A B} (m : M A) (k : A -> M B) (w w' : world) (a : A) :
  m w = (Ok a, w') -> bind m k w = k a w'.
Proof. unfold bind. now intros ->. Qed.

Lemma bind_raise {A B} (m : M A) (k : A -> M B) (w w' : world) (e : exn) :
  m w = (Raise e, w') -> bind m k w = (Raise e, w').
Proof. unfold bind. now intros ->. Qed.

Lemma value_bind {A B} (m : M A) (k : A -> M B) (w : world) :
  value_of (bind m k) w =
  match value_of m w with
  | Ok a => value_of (k a) (world_after m w)
  | Raise e => Raise e
  end.
Proof.
  unfold value_of, world_after, bind. destruct (m w) as [[a|e] w']; reflexivity.
Qed.

Lemma world_bind {A B} (m : M A) (k : A -> M B) (w : world) :
  world_after (bind m k) w =
  match value_of m w with
  | Ok a => world_after (k a) (world_after m w)
  | Raise e => world_after m w
  end.
Proof.
  unfold value_of, world_after, bind. destruct (m w) as [[a|e] w']; reflexivity.
Qed.

Lemma pure_bind {A B} (m : M A) (k : A -> M B) (a : A) (r : result B) :
  pure_value m (Ok a) -> pure_value (k a) r -> pure_value (bind m k) r.
Proof. intros Hm Hk w. rewrite value_bind, Hm. apply Hk. Qed.

Lemma pure_bind_raise {A B} (m : M A) (k : A -> M B) (e : exn) :
  pure_value m (Raise e) -> pure_value (bind m k) (Raise e).
Proof. intros Hm w. now rewrite value_bind, Hm. Qed.

Lemma pure_ret {A} (a : A) : pure_value (ret a) (Ok a).
Proof. intros w. reflexivity. Qed.

Lemma pure_raise {A} (e : exn) : pure_value (@raise A e) (Raise e).
Proof. intros w. reflexivity. Qed.

Lemma pure_lift {A} (r : result A) : pure_value (lift r) r.
Proof. intros w. reflexivity. Qed.

Lemma pure_print (s : string) : pure_value (print s) (Ok tt).
Proof. intros w. reflexivity. Qed.

Lemma pure_when (b : bool) (m : M unit) :
  pure_value m (Ok tt) -> pure_value (when b m) (Ok tt).
Proof. destruct b; [trivial | intros _ w; reflexivity]. Qed.

Lemma keeps_ret {A} (a : A) : keeps_files (ret a).
Proof. intros w. reflexivity. Qed.

Lemma keeps_raise {A} (e : exn) : keeps_files (@raise A e).
Proof. intros w. reflexivity. Qed.

Lemma keeps_lift {A} (r : result A) : keeps_files (lift r).
Proof. intros w. reflexivity. Qed.

Lemma keeps_print (s : string) : keeps_files (print s).
Proof. intros w. reflexivity. Qed.

Lemma keeps_read_file (path : string) : keeps_files (read_file path).
Proof.
  intros w. unfold world_after, read_file. now destruct (fs w path).
Qed.

Lemma keeps_bind {A B} (m : M A) (k : A -> M B) :
  keeps_files m -> (forall a, keeps_files (k a)) -> keeps_files (bind m k).
Proof.
  intros Hm Hk w. rewrite world_bind.
  destruct (value_of m w); [rewrite Hk|]; apply Hm.
Qed.

Lemma keeps_when (b : bool) (m : M unit) :
  keeps_files m -> keeps_files (when b m).
Proof. destruct b; [trivial | intros _; apply keeps_ret]. Qed.

(** A computation that returns the same value in every world and keeps
    the files runs to that value and a world with the same files. *)
Lemma run_quiet {A} (m : M A) (a : A) (w : world) :
  pure_value m (Ok a) -> keeps_files m ->
  exists w', m w = (Ok a, w') /\ fs w' = fs w.
Proof.
  intros Hv Hk. exists (world_after m w). split; [|apply Hk].
  specialize (Hv w). unfold value_of, world_after in *.
  destruct (m w) as [r w']. cbn in *. now subst.
Qed.

Lemma keeps_if {A} (b : bool) (m1 m2 : M A) :
  keeps_files m1 -> keeps_files m2 -> keeps_files (if b then m1 else m2).
Proof. now destruct b. Qed.

End MFacts.
Import MFacts.

Create HintDb pure_db.
#[export] Hint Resolve pure_ret pure_raise pure_lift pure_print pure_when
  : pure_db.

Create HintDb keeps_db.
#[export] Hint Resolve keeps_ret keeps_raise keeps_lift keeps_print
  keeps_read_file keeps_bind keeps_when keeps_if : keeps_db.

(* ----------------------------------------------------------------- *)
(** ** The two templates *)

Lemma markdown_format_eval (name link : string) :
  str_format_go markdown_format None [("file_name", name); ("url", link)]
  = Ok (replacement_line name link).
Proof. reflexivity. Qed.

Lemma korki_url_format_eval (ftype format data : string) :
  str_format_go korki_url_format None
    [("type", ftype); ("format", format); ("data", data)]
  = Ok ("https://kroki.io/" ++ ftype ++ "/" ++ format ++ "/" ++ data).
Proof.
  rewrite <- (append_nil_r data) at 2. reflexivity.
Qed.

(* ----------------------------------------------------------------- *)
(** ** The substitutor: [check_line] and the loop of [update_markdown_file] *)

Lemma find_first {A} (p : A -> bool) (pre post : list A) (y : A) :
  (forall x, In x pre -> p x = false) -> p y = true ->
  find p (pre ++ y :: post)%list = Some y.
Proof.
  intros Hpre Hy. induction pre as [|x pre IH]; simpl.
  - now rewrite Hy.
  - rewrite (Hpre x (or_introl eq_refl)). apply IH.
    intros z Hz. apply Hpre. now right.
Qed.

Lemma find_none_iff {A} (p : A -> bool) (l : list A) :
  find p l = None <-> forall x, In x l -> p x = false.
Proof.
  induction l as [|x l IH]; simpl.
  - split; [intros _ y [] | reflexivity].
  - destruct (p x) eqn:E.
    + split; [discriminate|]. intros H.
      specialize (H x (or_introl eq_refl)). congruence.
    + rewrite IH. split.
      * intros H y [<-|Hy]; auto.
      * intros H y Hy. apply H. now right.
Qed.

Section Substitutor.

Context {libraries : Libraries}.

Lemma check_line_for_value items line index verbosity req :
  pure_value (check_line_for items line index verbosity req)
    (Ok match find (matches line) items with
        | Some (name, link) => Some (replacement_line name link)
        | None => match items with [] => req | _ :: _ => Some line end
        end).
Proof.
  revert req. induction items as [|[key value] items IH]; intros req.
  - apply pure_ret.
  - cbn [check_line_for find]. unfold matches at 1, placeholder. cbn [fst].
    destruct (contains ("![" ++ key ++ "]") line).
    + eapply pure_bind.
      { unfold str_format. rewrite markdown_format_eval. apply pure_lift. }
      eapply pure_bind; [auto with pure_db|].
      eapply pure_bind; [|apply pure_ret].
      apply pure_when. eapply pure_bind; auto with pure_db.
    + specialize (IH (Some line)). destruct items; exact IH.
Qed.

(** The value of [check_line]: the replacement for the first matching
    entry, the line itself when a non-empty mapping has no match, and
    [UnboundLocalError] when the mapping is empty. *)
Lemma check_line_value line index replacements verbosity :
  pure_value (check_line line index replacements verbosity)
    match replacements with
    | [] => Raise (UnboundLocalError "req")
    | _ :: _ => Ok (rewritten_line replacements line)
    end.
Proof.
  unfold check_line, rewritten_line, dict_items.
  destruct replacements as [|item d].
  - eapply pure_bind; [apply check_line_for_value|]. apply pure_raise.
  - eapply pure_bind; [apply check_line_for_value|].
    destruct (find (matches line) (item :: d)) as [[name link]|];
      apply pure_ret.
Qed.

Lemma update_for_value data index replacements verbosity final :
  replacements <> [] ->
  pure_value (update_for data index replacements verbosity final)
    (Ok (final ++ map (rewritten_line replacements) data)%list).
Proof.
  intros Hd. revert index final.
  induction data as [|line data IH]; intros index final; simpl.
  - rewrite app_nil_r. apply pure_ret.
  - eapply pure_bind.
    { pose proof (check_line_value line index replacements verbosity) as H.
      destruct replacements; [congruence | exact H]. }
    eapply pure_bind; [apply pure_print|].
    replace (final ++ rewritten_line replacements line
               :: map (rewritten_line replacements) data)%list
      with ((final ++ [rewritten_line replacements line])
              ++ map (rewritten_line replacements) data)%list
      by (rewrite <- app_assoc; reflexivity).
    apply IH.
Qed.

Lemma update_for_empty_mapping line data index verbosity final :
  pure_value (update_for (line :: data) index [] verbosity final)
    (Raise (UnboundLocalError "req")).
Proof.
  simpl. apply pure_bind_raise.
  apply (check_line_value line index [] verbosity).
Qed.

(** The whole run of the loop under an empty mapping: it raises at the
    first line and leaves the world as it found it. *)
Lemma update_for_empty_mapping_run line data index verbosity final w :
  update_for (line :: data) index [] verbosity final w
  = (Raise (UnboundLocalError "req"), w).
Proof. reflexivity. Qed.

Lemma rewritten_line_no_match replacements line :
  (forall name link, In (name, link) replacements ->
     ~ occurs_in (placeholder name) line) ->
  rewritten_line replacements line = line.
Proof.
  intros H. unfold rewritten_line, dict_items.
  replace (find (matches line) replacements) with (@None (string * string));
    [reflexivity|].
  symmetry. apply find_none_iff. intros [name link] Hin.
  unfold matches. cbn [fst]. apply contains_false. eauto.
Qed.

(** Under a mapping that is not empty and matches no line, the pass
    returns the document as it is. *)
Lemma update_for_no_match data replacements verbosity w :
  replacements <> [] ->
  (forall line name link, In line data -> In (name, link) replacements ->
     ~ occurs_in (placeholder name) line) ->
  value_of (update_for data 0 replacements verbosity []) w = Ok data.
Proof.
  intros Hd Hno. rewrite (update_for_value data 0 replacements verbosity [] Hd).
  simpl. f_equal. rewrite <- (map_id data) at 2. apply map_ext_in.
  intros line Hl. apply rewritten_line_no_match. eauto.
Qed.

Lemma check_line_first_match line index verbosity w pre post name link :
  (forall name' link', In (name', link') pre ->
     ~ occurs_in (placeholder name') line) ->
  occurs_in (placeholder name) line ->
  value_of (check_line line index (pre ++ (name, link) :: post)%list verbosity) w
  = Ok (replacement_line name link).
Proof.
  intros Hpre Hname.
  rewrite (check_line_value line index (pre ++ (name, link) :: post)%list verbosity).
  destruct (pre ++ (name, link) :: post)%list eqn:E.
  { destruct pre; discriminate. }
  rewrite <- E. unfold rewritten_line, dict_items.
  rewrite (find_first (matches line) pre post (name, link)).
  - reflexivity.
  - intros [name' link'] Hin. apply contains_false. eauto.
  - apply contains_spec. exact Hname.
Qed.

End Substitutor.

(** C4: [check_line] tests the entries of a mapping in iteration order.
    The first entry whose placeholder [![name]] occurs anywhere in the
    line decides the result, which is exactly [![name](link)] followed by
    a line break, whatever surrounds the placeholder on the line; the
    entries after it are not looked at, so one entry at most rewrites a
    line, also when the line holds several placeholders. *)
Theorem check_line_first_match_wins {libraries : Libraries}
    (line : string) (index verbosity : Z) (w : world)
    (pre post : dict) (name link : string) :
  (forall name' link', In (name', link') pre ->
     ~ occurs_in (placeholder name') line) ->
  occurs_in (placeholder name) line ->
  value_of (check_line line index (pre ++ (name, link) :: post)%list verbosity) w
  = Ok ("![" ++ name ++ "](" ++ link ++ ")" ++ nl).
Proof. apply check_line_first_match. Qed.

Lemma check_line_first_match_wins_witness :
  (forall name' link', In (name', link') [("c.mmd", "L0")] ->
     ~ occurs_in (placeholder name') "![b.mmd] and ![a.mmd]")
  /\ occurs_in (placeholder "a.mmd") "![b.mmd] and ![a.mmd]"
  /\ value_of
       (check_line (libraries := example_libraries) "![b.mmd] and ![a.mmd]" 4
          [("c.mmd", "L0"); ("a.mmd", "L1"); ("b.mmd", "L2")] 3)
       example_world
     = Ok ("![a.mmd](L1)" ++ nl).
Proof.
  assert (H1 : forall name' link', In (name', link') [("c.mmd", "L0")] ->
                 ~ occurs_in (placeholder name') "![b.mmd] and ![a.mmd]").
  { intros name' link' [H|[]]. inversion H; subst.
    apply contains_false. reflexivity. }
  assert (H2 : occurs_in (placeholder "a.mmd") "![b.mmd] and ![a.mmd]").
  { apply contains_spec. reflexivity. }
  split; [exact H1 | split; [exact H2|]].
  exact (check_line_first_match_wins (libraries := example_libraries)
           "![b.mmd] and ![a.mmd]" 4 3 example_world
           [("c.mmd", "L0")] [("b.mmd", "L2")] "a.mmd" "L1" H1 H2).
Defined.

(** C1, at the input on which the code departs from it: under an empty
    mapping the substitution pass does not return a document that has a
    line; the first call of [check_line] reaches [return req] with [req]
    unbound and the pass ends in [UnboundLocalError]. *)
Theorem substitution_pass_empty_mapping_raises {libraries : Libraries}
    (line : string) (data : list string) (verbosity : Z) (w : world) :
  value_of (check_line line 0 [] verbosity) w = Raise (UnboundLocalError "req")
  /\ value_of (update_for (line :: data) 0 [] verbosity []) w
     = Raise (UnboundLocalError "req").
Proof.
  split.
  - apply (check_line_value line 0 [] verbosity).
  - apply update_for_empty_mapping.
Qed.

(** The same from the command line: one input, of an extension that is not
    recognized, and a target document that has a line. *)
Lemma main_unrecognized_input_raises :
  value_of
    (main (libraries := example_libraries)
       {| arg_input := ["notes.txt"]; arg_format := "svg";
          arg_dry_run := false; arg_verbose := 0; arg_silent := false;
          arg_output := "README.md" |})
    example_world
  = Raise (UnboundLocalError "req").
Proof. reflexivity. Qed.

(** Where the loop of [update_markdown_file] returns, it has appended one
    line for each line of the document: the rewritten sequence has as many
    lines as the document, and a line in which no placeholder of the
    mapping occurs is at its place unchanged.  It returns for every
    mapping that is not empty, and for the empty document. *)
Lemma update_for_line_count {libraries : Libraries}
    (data : list string) (replacements : dict) (verbosity : Z) (w : world) :
  (forall final,
     value_of (update_for data 0 replacements verbosity []) w = Ok final ->
     length final = length data
     /\ forall i line,
          nth_error data i = Some line ->
          (forall name link, In (name, link) replacements ->
             ~ occurs_in (placeholder name) line) ->
          nth_error final i = Some line)
  /\ (replacements <> [] \/ data = [] ->
      exists final,
        value_of (update_for data 0 replacements verbosity []) w = Ok final).
Proof.
  split.
  - intros final Hrun. destruct replacements as [|item d].
    + destruct data as [|line data].
      * inversion Hrun; subst. split; [reflexivity|].
        intros i line H. now destruct i.
      * rewrite update_for_empty_mapping in Hrun. discriminate.
    + rewrite update_for_value in Hrun by discriminate.
      inversion Hrun; subst. cbn [app]. split; [apply length_map|].
      intros i line Hi Hno. rewrite nth_error_map, Hi. cbn.
      now rewrite rewritten_line_no_match.
  - intros [Hd | ->].
    + eexists. now apply update_for_value.
    + now exists [].
Qed.

(** C5, at the input on which the code departs from it: under an empty
    mapping the loop of [update_markdown_file] stops at the first line of
    the document.  [check_line] raises [UnboundLocalError] before anything
    is printed or appended, so no rewritten sequence is produced, of any
    number of lines. *)
Theorem update_for_empty_mapping_stops {libraries : Libraries}
    (line : string) (data : list string) (index verbosity : Z)
    (final : list string) (w : world) :
  update_for (line :: data) index [] verbosity final w
  = (Raise (UnboundLocalError "req"), w).
Proof. apply update_for_empty_mapping_run. Qed.

(* ----------------------------------------------------------------- *)
(** ** Persistence: [update_markdown_file] and the dry-run flag *)

Lemma read_file_run (path : string) (w : world) (f : file) :
  fs w path = Some f -> read_file path w = (Ok (f_text f), w).
Proof. unfold read_file. now intros ->. Qed.

Lemma write_file_run (path : string) (lines : list string) (w : world)
    (f : file) :
  fs w path = Some f -> f_writable f = true ->
  write_file path lines w
  = (Ok tt,
     {| fs := fs_update path
                {| f_text := writelines lines; f_writable := true |} (fs w);
        stdout := stdout w |}).
Proof.
  unfold write_file. intros -> Hw. destruct f as [text writable].
  cbn in Hw. now subst.
Qed.

Section Persistence.

Context {libraries : Libraries}.

Lemma keeps_check_line_for items line index verbosity req :
  keeps_files (check_line_for items line index verbosity req).
Proof.
  revert req. induction items as [|[key value] items IH]; intros req;
    cbn [check_line_for]; [apply keeps_ret|].
  destruct (contains ("![" ++ key ++ "]") line); [|apply IH].
  unfold str_format. auto 10 with keeps_db.
Qed.

Lemma keeps_check_line line index replacements verbosity :
  keeps_files (check_line line index replacements verbosity).
Proof.
  unfold check_line. apply keeps_bind; [apply keeps_check_line_for|].
  intros [r|]; auto with keeps_db.
Qed.

Lemma keeps_update_for data index replacements verbosity final :
  keeps_files (update_for data index replacements verbosity final).
Proof.
  revert index final. induction data as [|line data IH]; intros index final;
    cbn [update_for]; [apply keeps_ret|].
  apply keeps_bind; [apply keeps_check_line|]. intros req.
  apply keeps_bind; [apply keeps_print | intros _; apply IH].
Qed.

(** The value of the pass is the same in every world. *)
Lemma update_for_pure data index replacements verbosity final :
  exists r, pure_value (update_for data index replacements verbosity final) r.
Proof.
  destruct replacements as [|item d].
  - destruct data as [|line data].
    + eexists. apply pure_ret.
    + eexists. apply update_for_empty_mapping.
  - eexists. apply update_for_value. discriminate.
Qed.

Lemma keeps_update_markdown_file_dry_run file_name replacements verbosity :
  keeps_files (update_markdown_file file_name replacements true verbosity).
Proof.
  unfold update_markdown_file. cbn [negb].
  pose proof keeps_update_for. auto 12 with keeps_db.
Qed.

End Persistence.

(** With the dry-run flag set, [update_markdown_file] leaves every file as
    it was, whatever the mapping, the verbosity and the matches it finds,
    and however the call ends.  With the flag not set, once the document
    has been read and the loop has produced the rewritten lines, they are
    written back: the call returns, and the file system differs from the
    one before in the one file, which now holds the rewritten lines put
    together. *)
Lemma update_markdown_file_persistence {libraries : Libraries}
    (file_name : string) (replacements : dict) (verbosity : Z) (w : world) :
  fs (world_after
        (update_markdown_file file_name replacements true verbosity) w)
  = fs w
  /\ forall (f : file) (final : list string),
       fs w file_name = Some f ->
       f_writable f = true ->
       value_of (update_for (readlines (f_text f)) 0 replacements verbosity [])
         w = Ok final ->
       value_of (update_markdown_file file_name replacements false verbosity) w
       = Ok tt
       /\ fs (world_after
                (update_markdown_file file_name replacements false verbosity) w)
          = fs_update file_name
              {| f_text := writelines final; f_writable := true |} (fs w).
Proof.
  split; [apply keeps_update_markdown_file_dry_run|].
  intros f final Hf Hw Hpass.
  destruct (update_for_pure (readlines (f_text f)) 0 replacements verbosity [])
    as [r Hr].
  rewrite Hr in Hpass. subst r.
  enough (exists w',
            update_markdown_file file_name replacements false verbosity w
            = (Ok tt, w')
            /\ fs w' = fs_update file_name
                         {| f_text := writelines final; f_writable := true |}
                         (fs w)) as [w' [E F]].
  { unfold value_of, world_after. rewrite E. split; [reflexivity | exact F]. }
  unfold update_markdown_file. cbn [negb].
  edestruct (run_quiet (when (verbosity >=? 1)%Z
                          (print (colored ("Finding Update Points in "
                                             ++ file_name ++ ":") "blue")))
               tt w) as [w1 [E1 F1]]; [auto with pure_db | auto with keeps_db|].
  rewrite (bind_ok _ _ _ _ _ E1).
  rewrite (bind_ok _ _ w1 w1 (f_text f))
    by (apply read_file_run; now rewrite F1).
  destruct (run_quiet _ final w1 Hr (keeps_update_for _ _ _ _ _))
    as [w2 [E2 F2]].
  rewrite (bind_ok _ _ _ _ _ E2).
  edestruct (run_quiet (when (verbosity >=? 1)%Z
                          (print (colored ("Found "
                                     ++ str (Z.of_nat (length replacements))
                                     ++ " Update Points") "blue") ;;
                           print ""))
               tt w2) as [w3 [E3 F3]].
  { apply pure_when. eapply pure_bind; auto with pure_db. }
  { auto with keeps_db. }
  rewrite (bind_ok _ _ _ _ _ E3).
  edestruct (run_quiet (when (verbosity >=? 1)%Z
                          (print (colored ("Updating " ++ file_name) "blue")))
               tt w3) as [w4 [E4 F4]]; [auto with pure_db | auto with keeps_db|].
  rewrite (bind_ok _ _ _ _ _ E4).
  assert (F : fs w4 = fs w) by congruence.
  rewrite (bind_ok _ _ _ _ _ (write_file_run file_name final w4 f
                                 ltac:(now rewrite F) Hw)).
  edestruct (run_quiet (when (verbosity >=? 1)%Z
                          (print (colored ("Updated " ++ file_name) "green") ;;
                           print ""))
               tt) as [w5 [E5 F5]].
  { apply pure_when. eapply pure_bind; auto with pure_db. }
  { auto with keeps_db. }
  exists w5. split; [exact E5|]. rewrite F5. cbn [fs]. now rewrite F.
Qed.

Lemma update_markdown_file_persistence_example :
  fs (world_after
        (update_markdown_file (libraries := example_libraries) "README.md"
           [("a.mmd", "L1"); ("b.mmd", "L2")] true 1) example_world)
  = example_fs
  /\ value_of
       (update_markdown_file (libraries := example_libraries) "README.md"
          [("a.mmd", "L1"); ("b.mmd", "L2")] false 1) example_world
     = Ok tt
  /\ fs (world_after
           (update_markdown_file (libraries := example_libraries) "README.md"
              [("a.mmd", "L1"); ("b.mmd", "L2")] false 1) example_world)
        "README.md"
     = example_file ("# Title" ++ nl ++ "![a.mmd](L1)" ++ nl ++ "last line").
Proof.
  destruct (update_markdown_file_persistence (libraries := example_libraries)
              "README.md" [("a.mmd", "L1"); ("b.mmd", "L2")] 1 example_world)
    as [H1 H2].
  split; [exact H1|].
  destruct (H2 {| f_text := "# Title" ++ nl ++ "![b.mmd] and ![a.mmd]" ++ nl
                               ++ "last line";
                  f_writable := true |}
              ["# Title" ++ nl; "![a.mmd](L1)" ++ nl; "last line"]
              eq_refl eq_refl eq_refl) as [V F].
  split; [exact V|]. rewrite F. reflexivity.
Qed.

(** C6, at the input on which the code departs from it: with the dry-run
    flag not set, an empty mapping and a document that has a line, nothing
    is written back.  [update_markdown_file] ends in [UnboundLocalError]
    in the loop over the lines, before the file is opened for writing, and
    the file system is as it was. *)
Theorem update_markdown_file_empty_mapping_no_write {libraries : Libraries}
    (file_name : string) (verbosity : Z) (w : world) (f : file)
    (line : string) (lines : list string) :
  fs w file_name = Some f ->
  readlines (f_text f) = line :: lines ->
  value_of (update_markdown_file file_name [] false verbosity) w
  = Raise (UnboundLocalError "req")
  /\ fs (world_after (update_markdown_file file_name [] false verbosity) w)
     = fs w.
Proof.
  intros Hf Hlines.
  enough (exists w',
            update_markdown_file file_name [] false verbosity w
            = (Raise (UnboundLocalError "req"), w')
            /\ fs w' = fs w) as [w' [E F]].
  { unfold value_of, world_after. rewrite E. split; [reflexivity | exact F]. }
  unfold update_markdown_file.
  edestruct (run_quiet (when (verbosity >=? 1)%Z
                          (print (colored ("Finding Update Points in "
                                             ++ file_name ++ ":") "blue")))
               tt w) as [w1 [E1 F1]]; [auto with pure_db | auto with keeps_db|].
  rewrite (bind_ok _ _ _ _ _ E1).
  rewrite (bind_ok _ _ w1 w1 (f_text f))
    by (apply read_file_run; now rewrite F1).
  rewrite Hlines. exists w1. split; [|exact F1].
  apply bind_raise. apply update_for_empty_mapping_run.
Qed.

Lemma update_markdown_file_empty_mapping_no_write_witness :
  fs example_world "README.md"
  = example_file ("# Title" ++ nl ++ "![b.mmd] and ![a.mmd]" ++ nl
                    ++ "last line")
  /\ value_of
       (update_markdown_file (libraries := example_libraries) "README.md" []
          false 1) example_world
     = Raise (UnboundLocalError "req")
  /\ fs (world_after
           (update_markdown_file (libraries := example_libraries) "README.md"
              [] false 1) example_world)
     = example_fs.
Proof.
  split; [reflexivity|].
  exact (update_markdown_file_empty_mapping_no_write
           (libraries := example_libraries) "README.md" 1 example_world
           {| f_text := "# Title" ++ nl ++ "![b.mmd] and ![a.mmd]" ++ nl
                          ++ "last line";
              f_writable := true |}
           ("# Title" ++ nl) ["![b.mmd] and ![a.mmd]" ++ nl; "last line"]
           eq_refl eq_refl).
Defined.

(* ----------------------------------------------------------------- *)
(** ** Base64 *)

Module Base64Facts.

Import Base64.

Local Open Scope N_scope.

Ltac div_mod_lia := zify; Z.to_euclidean_division_equations; lia.

(** A property checked on every number below a bound. *)
Lemma below_forallb (P : nat -> bool) (k : nat) :
  forallb P (seq 0 k) = true -> forall i, (i < k)%nat -> P i = true.
Proof.
  intros H i Hi. rewrite forallb_forall in H. apply H, in_seq. lia.
Qed.

Lemma below_64 (P : N -> bool) :
  forallb (fun i => P (N.of_nat i)) (seq 0 64) = true ->
  forall n, n < 64 -> P n = true.
Proof.
  intros H n Hn. rewrite <- (N2Nat.id n).
  apply (below_forallb (fun i => P (N.of_nat i)) 64 H). lia.
Qed.

Lemma get_beyond (s : string) (i : nat) :
  (String.length s <= i)%nat -> get i s = None.
Proof.
  revert i. induction s as [|c s IH]; intros i H; [reflexivity|].
  destruct i as [|i]; cbn in *; [lia|]. apply IH. lia.
Qed.

Lemma digit_beyond (n : N) : 64 <= n -> digit n = pad.
Proof.
  intros H. unfold digit. rewrite get_beyond; [reflexivity|].
  change (String.length alphabet) with 64%nat. lia.
Qed.

(** A character of the encoding is decoded to its six-bit group. *)
Lemma index_digit (n : N) :
  n < 64 ->
  index (urlsafe_decode_translation (urlsafe_encode_translation (digit n)))
  = Some n.
Proof.
  intros H.
  pose (P := fun n =>
          match index (urlsafe_decode_translation
                         (urlsafe_encode_translation (digit n))) with
          | Some m => m =? n
          | None => false
          end).
  assert (HP : P n = true) by (apply below_64; [vm_compute; reflexivity | exact H]).
  unfold P in HP.
  destruct (index _) as [m|]; [|discriminate].
  apply N.eqb_eq in HP. now subst.
Qed.

Lemma digit_not_pad (n : N) :
  n < 64 ->
  Byte.eqb (urlsafe_decode_translation (urlsafe_encode_translation (digit n)))
    pad = false.
Proof.
  intros H.
  apply (below_64 (fun n => negb (Byte.eqb (urlsafe_decode_translation
                                   (urlsafe_encode_translation (digit n))) pad)))
    in H as H'.
  - now apply negb_true_iff in H'.
  - vm_compute. reflexivity.
Qed.

Lemma url_safe_digit (n : N) :
  url_safe (urlsafe_encode_translation (digit n)) = true.
Proof.
  destruct (N.lt_ge_cases n 64) as [H|H].
  - revert n H. apply below_64. vm_compute. reflexivity.
  - rewrite digit_beyond by exact H. reflexivity.
Qed.

Lemma byte_of_to_N (b : byte) : byte_of_N (Byte.to_N b) = b.
Proof.
  unfold byte_of_N. pose proof (Byte.to_N_bounded b).
  rewrite N.mod_small by lia. now rewrite Byte.of_to_N.
Qed.

Lemma byte_of_N_eq (n : N) (b : byte) : n = Byte.to_N b -> byte_of_N n = b.
Proof. intros ->. apply byte_of_to_N. Qed.

Lemma list_ind3 {A} (P : list A -> Prop) :
  P [] -> (forall a, P [a]) -> (forall a b, P [a; b]) ->
  (forall a b c l, P l -> P (a :: b :: c :: l)) ->
  forall l, P l.
Proof.
  intros H0 H1 H2 H3.
  refine (fix F l :=
            match l with
            | [] => H0
            | [a] => H1 a
            | [a; b] => H2 a b
            | a :: b :: c :: l' => H3 a b c l' (F l')
            end).
Qed.

Lemma b64decode_group (c1 c2 c3 c4 : byte) (s : list byte) :
  Byte.eqb c4 pad = false ->
  b64decode (c1 :: c2 :: c3 :: c4 :: s) =
  match index c1, index c2, index c3, index c4, b64decode s with
  | Some i1, Some i2, Some i3, Some i4, Some bs =>
      Some (byte_of_N (i1 * 4 + i2 / 16)
              :: byte_of_N (i2 mod 16 * 16 + i3 / 4)
              :: byte_of_N (i3 mod 4 * 64 + i4) :: bs)
  | _, _, _, _, _ => None
  end.
Proof. intros H. cbn [b64decode]. now rewrite H. Qed.

(** Decoding what [urlsafe_b64encode] produced gives the bytes back. *)
Theorem urlsafe_b64_roundtrip (s : list byte) :
  urlsafe_b64decode (urlsafe_b64encode s) = Some s.
Proof.
  unfold urlsafe_b64decode, urlsafe_b64encode.
  induction s as [|a|a b|a b c s IH] using list_ind3.
  - reflexivity.
  - pose proof (Byte.to_N_bounded a).
    cbn [b64encode map b64decode].
    change (Byte.eqb (urlsafe_decode_translation
                        (urlsafe_encode_translation pad)) pad) with true.
    cbn iota. rewrite !index_digit by div_mod_lia.
    rewrite (byte_of_N_eq _ a) by div_mod_lia. reflexivity.
  - pose proof (Byte.to_N_bounded a). pose proof (Byte.to_N_bounded b).
    cbn [b64encode map b64decode].
    change (Byte.eqb (urlsafe_decode_translation
                        (urlsafe_encode_translation pad)) pad) with true.
    cbn iota. rewrite digit_not_pad by div_mod_lia.
    rewrite !index_digit by div_mod_lia.
    rewrite (byte_of_N_eq _ a) by div_mod_lia.
    rewrite (byte_of_N_eq _ b) by div_mod_lia. reflexivity.
  - pose proof (Byte.to_N_bounded a). pose proof (Byte.to_N_bounded b).
    pose proof (Byte.to_N_bounded c).
    cbn [b64encode map].
    rewrite b64decode_group by (apply digit_not_pad; div_mod_lia).
    rewrite !index_digit by div_mod_lia. rewrite IH.
    rewrite (byte_of_N_eq _ a) by div_mod_lia.
    rewrite (byte_of_N_eq _ b) by div_mod_lia.
    rewrite (byte_of_N_eq _ c) by div_mod_lia. reflexivity.
Qed.

Lemma url_safe_encoding (s : list byte) :
  forallb url_safe (urlsafe_b64encode s) = true.
Proof.
  unfold urlsafe_b64encode.
  induction s as [|a|a b|a b c s IH] using list_ind3;
    cbn [b64encode map forallb]; rewrite ?url_safe_digit, ?IH; reflexivity.
Qed.

Lemma in_urlsafe_alphabet_digit (n : N) :
  in_urlsafe_alphabet (urlsafe_encode_translation (digit n)) = true.
Proof.
  destruct (N.lt_ge_cases n 64) as [H|H].
  - revert n H. apply below_64. vm_compute. reflexivity.
  - rewrite digit_beyond by exact H. reflexivity.
Qed.

(** The encoding uses the URL-safe alphabet and [=], four characters for
    every three bytes started. *)
Lemma urlsafe_b64encode_shape (s : list byte) :
  forallb in_urlsafe_alphabet (urlsafe_b64encode s) = true
  /\ (length (urlsafe_b64encode s) = 4 * ((length s + 2) / 3))%nat.
Proof.
  unfold urlsafe_b64encode.
  induction s as [|a|a b|a b c s [IH1 IH2]] using list_ind3;
    cbn [b64encode map forallb length];
    rewrite ?in_urlsafe_alphabet_digit, ?IH1, ?IH2; split; try reflexivity.
  replace (S (S (S (length s))) + 2)%nat with (1 * 3 + (length s + 2))%nat
    by lia.
  rewrite Nat.div_add_l by lia. lia.
Qed.

Lemma decode_ascii_url_safe (b : list byte) :
  forallb url_safe b = true -> decode_ascii b = Ok (string_of_list_byte b).
Proof.
  intros H. unfold decode_ascii.
  replace (forallb (fun x => Byte.to_N x <? 128) b) with true; [reflexivity|].
  symmetry. rewrite forallb_forall in *. intros x Hx.
  specialize (H x Hx). unfold url_safe in H.
  now apply andb_true_iff in H.
Qed.

Lemma no_slash_url_safe (b : list byte) :
  forallb url_safe b = true -> has_char "/" (string_of_list_byte b) = false.
Proof.
  induction b as [|x b IH]; [reflexivity|].
  cbn [forallb]. intros H. apply andb_true_iff in H as [Hx Hb].
  change (string_of_list_byte (x :: b))
    with (String (ascii_of_byte x) (string_of_list_byte b)).
  cbn [has_char]. rewrite (IH Hb), orb_false_r.
  unfold url_safe in Hx. apply andb_true_iff in Hx as [_ Hx].
  apply negb_true_iff in Hx. apply Ascii.eqb_neq. intros E.
  apply (f_equal byte_of_ascii) in E. rewrite byte_of_ascii_of_byte in E.
  subst x. discriminate.
Qed.

End Base64Facts.

(* ----------------------------------------------------------------- *)
(** ** The encoder: [convert_file] *)

Section Encoder.

Context {libraries : Libraries}.

Import Base64 Base64Facts.

Lemma convert_file_run file_name ftype format verbosity w f :
  fs w file_name = Some f ->
  exists w',
    convert_file file_name ftype format verbosity w
    = (Ok ("https://kroki.io/" ++ ftype ++ "/" ++ format ++ "/"
             ++ payload (f_text f)), w')
    /\ fs w' = fs w.
Proof.
  intros Hf. unfold convert_file.
  rewrite (bind_ok _ _ w w (f_text f)) by now apply read_file_run.
  rewrite (bind_ok _ _ w w (payload (f_text f))).
  2:{ unfold lift. now rewrite decode_ascii_url_safe by apply url_safe_encoding. }
  edestruct (run_quiet (when (verbosity >=? 2)%Z
                          (print (colored (tab ++ "Processed file: " ++ file_name)
                                    "green"))) tt w)
    as [w1 [E1 F1]]; [auto with pure_db | auto with keeps_db|].
  rewrite (bind_ok _ _ _ _ _ E1).
  exists w1. split; [|exact F1].
  unfold str_format, lift. now rewrite korki_url_format_eval.
Qed.

Lemma convert_file_unreadable file_name ftype format verbosity w :
  fs w file_name = None ->
  convert_file file_name ftype format verbosity w
  = (Raise (OSError file_name), w).
Proof.
  intros Hf. unfold convert_file. apply bind_raise.
  unfold read_file. now rewrite Hf.
Qed.

Lemma keeps_convert_file file_name ftype format verbosity :
  keeps_files (convert_file file_name ftype format verbosity).
Proof. unfold convert_file, str_format. auto 10 with keeps_db. Qed.

Lemma payload_of_link ftype format text :
  payload_of ("https://kroki.io/" ++ ftype ++ "/" ++ format ++ "/"
                ++ payload text) = payload text.
Proof.
  unfold payload_of.
  replace ("https://kroki.io/" ++ ftype ++ "/" ++ format ++ "/" ++ payload text)
    with (("https://kroki.io/" ++ ftype ++ "/" ++ format)
            ++ String "/" (payload text)).
  - apply last_split_suffix, no_slash_url_safe, url_safe_encoding.
  - rewrite !append_assoc. reflexivity.
Qed.

End Encoder.

(** C2: for a readable file, [convert_file] returns exactly
    [https://kroki.io/<language>/<format>/<payload>], where the payload is
    the URL-safe base64 encoding of [zlib.compress] at level 9 of the UTF-8
    bytes of the whole text of the file.  The encoding is made of the
    characters [A-Z a-z 0-9 - _] and the padding [=], four for every three
    bytes started; and the extension [.mmd] stands for the language
    [mermaid]. *)
Theorem convert_file_link {libraries : Libraries}
    (file_name language format : string) (verbosity : Z) (w : world)
    (f : file) :
  fs w file_name = Some f ->
  let compressed := zlib_compress (list_byte_of_string (f_text f)) 9 in
  value_of (convert_file file_name language format verbosity) w
  = Ok ("https://kroki.io/" ++ language ++ "/" ++ format ++ "/"
          ++ string_of_list_byte (Base64.urlsafe_b64encode compressed))
  /\ forallb Base64.in_urlsafe_alphabet (Base64.urlsafe_b64encode compressed)
     = true
  /\ length (Base64.urlsafe_b64encode compressed)
     = (4 * ((length compressed + 2) / 3))%nat
  /\ dict_get ".mmd" diagram_types = Some "mermaid".
Proof.
  intros Hf compressed.
  destruct (convert_file_run file_name language format verbosity w f Hf)
    as [w' [E _]].
  unfold value_of. rewrite E.
  destruct (Base64Facts.urlsafe_b64encode_shape compressed) as [H1 H2].
  repeat split; assumption.
Qed.

Lemma convert_file_link_witness :
  fs example_world "one/a.mmd" = example_file "graph TD; A-->B;"
  /\ value_of
       (convert_file (libraries := example_libraries) "one/a.mmd" "mermaid"
          "svg" 1) example_world
     = Ok "https://kroki.io/mermaid/svg/Z3JhcGggVEQ7IEEtLT5COw==".
Proof.
  split; [reflexivity|].
  exact (proj1 (convert_file_link (libraries := example_libraries)
                  "one/a.mmd" "mermaid" "svg" 1 example_world
                  {| f_text := "graph TD; A-->B;"; f_writable := true |}
                  eq_refl)).
Defined.

(** C3: the payload of the link that [convert_file] produces, decoded with
    the URL-safe base64 alphabet and then inflated, is the UTF-8 bytes of
    the text of the file.  [zlib.decompress] is taken with the one law
    that it inverts [zlib.compress]. *)
Theorem payload_roundtrip {libraries : Libraries}
    (zlib_decompress : list byte -> option (list byte))
    (file_name language format : string) (verbosity : Z) (w : world)
    (f : file) :
  (forall data level, zlib_decompress (zlib_compress data level) = Some data) ->
  fs w file_name = Some f ->
  exists link,
    value_of (convert_file file_name language format verbosity) w = Ok link
    /\ match Base64.urlsafe_b64decode (list_byte_of_string (payload_of link)) with
       | Some compressed => zlib_decompress compressed
       | None => None
       end = Some (list_byte_of_string (f_text f)).
Proof.
  intros Hzlib Hf.
  destruct (convert_file_run file_name language format verbosity w f Hf)
    as [w' [E _]].
  eexists. unfold value_of. rewrite E. split; [reflexivity|].
  rewrite payload_of_link. unfold payload.
  rewrite list_byte_of_string_of_list_byte.
  rewrite Base64Facts.urlsafe_b64_roundtrip. apply Hzlib.
Qed.

Lemma payload_roundtrip_witness :
  (forall data level,
     Some (zlib_compress (Libraries := example_libraries) data level)
     = Some data)
  /\ fs example_world "one/a.mmd" = example_file "graph TD; A-->B;"
  /\ exists link,
       value_of
         (convert_file (libraries := example_libraries) "one/a.mmd" "mermaid"
            "svg" 1) example_world = Ok link
       /\ match Base64.urlsafe_b64decode
                  (list_byte_of_string (payload_of link)) with
          | Some compressed => Some compressed
          | None => None
          end = Some (list_byte_of_string "graph TD; A-->B;").
Proof.
  split; [reflexivity | split; [reflexivity|]].
  exact (payload_roundtrip (libraries := example_libraries) Some
           "one/a.mmd" "mermaid" "svg" 1 example_world
           {| f_text := "graph TD; A-->B;"; f_writable := true |}
           (fun _ _ => eq_refl) eq_refl).
Defined.

(* ----------------------------------------------------------------- *)
(** ** Dictionaries *)

Module DictFacts.

Lemma mem_In (x : string) (l : list string) : mem x l = true <-> In x l.
Proof.
  unfold mem. rewrite existsb_exists. split.
  - intros [y [Hy E]]. apply String.eqb_eq in E. now subst.
  - intros H. exists x. split; [exact H | apply String.eqb_refl].
Qed.

Lemma mem_false (x : string) (l : list string) : mem x l = false <-> ~ In x l.
Proof. rewrite <- mem_In. destruct (mem x l); split; congruence. Qed.

Lemma mem_app (x : string) (l1 l2 : list string) :
  mem x (l1 ++ l2)%list = mem x l1 || mem x l2.
Proof. apply existsb_app. Qed.

Lemma dict_get_set_same (k v : string) (d : dict) :
  dict_get k (dict_set k v d) = Some v.
Proof.
  induction d as [|[k' v'] d IH]; simpl.
  - now rewrite String.eqb_refl.
  - destruct (k' =? k) eqn:E; simpl; rewrite E; [reflexivity | exact IH].
Qed.

Lemma dict_get_set_other (k k' v : string) (d : dict) :
  k <> k' -> dict_get k' (dict_set k v d) = dict_get k' d.
Proof.
  intros N. induction d as [|[k0 v0] d IH]; simpl.
  - apply String.eqb_neq in N. now rewrite N.
  - destruct (k0 =? k) eqn:E; simpl.
    + apply String.eqb_eq in E. subst k0.
      apply String.eqb_neq in N. now rewrite N.
    + now rewrite IH.
Qed.

Lemma dict_keys_set_old (k v : string) (d : dict) :
  In k (dict_keys d) -> dict_keys (dict_set k v d) = dict_keys d.
Proof.
  unfold dict_keys. induction d as [|[k' v'] d IH]; simpl; [tauto|].
  intros H. destruct (String.eqb_spec k' k) as [->|N]; [reflexivity|].
  simpl. f_equal. apply IH. destruct H; congruence.
Qed.

Lemma dict_keys_set_new (k v : string) (d : dict) :
  ~ In k (dict_keys d) -> dict_keys (dict_set k v d) = (dict_keys d ++ [k])%list.
Proof.
  unfold dict_keys. induction d as [|[k' v'] d IH]; simpl; [reflexivity|].
  intros H. destruct (String.eqb_spec k' k) as [->|N]; [tauto|].
  simpl. f_equal. apply IH. tauto.
Qed.

Lemma filter_filter_implied {A} (p q : A -> bool) (l : list A) :
  (forall x, p x = true -> q x = true) ->
  filter p (filter q l) = filter p l.
Proof.
  intros H. induction l as [|x l IH]; simpl; [reflexivity|].
  destruct (q x) eqn:Q; simpl.
  - now rewrite IH.
  - destruct (p x) eqn:P; [|exact IH]. rewrite (H x P) in Q. discriminate.
Qed.

Lemma filter_filter_both {A} (p q r : A -> bool) (l : list A) :
  (forall x, r x = q x && p x) ->
  filter p (filter q l) = filter r l.
Proof.
  intros H. induction l as [|x l IH]; simpl; [reflexivity|].
  rewrite H. destruct (q x); simpl; [destruct (p x)|]; now rewrite IH.
Qed.

Lemma first_occurrences_In (x : string) (l : list string) :
  In x (first_occurrences l) <-> In x l.
Proof.
  induction l as [|y l IH]; simpl; [tauto|].
  rewrite filter_In, IH, negb_true_iff, String.eqb_neq.
  destruct (string_dec y x); intuition congruence.
Qed.

Lemma first_occurrences_NoDup (l : list string) : NoDup (first_occurrences l).
Proof.
  induction l as [|y l IH]; simpl; constructor.
  - rewrite filter_In, negb_true_iff, String.eqb_neq. tauto.
  - now apply NoDup_filter.
Qed.

Section Fold.

Variable link : string -> string.

(** The keys after the loop: those before it, then the base names of the
    recognized files that are new, in the order of their first
    occurrence. *)
Lemma fold_insert_keys (file_names : list string) (d : dict) :
  dict_keys (fold_left (insert_link link) file_names d)
  = (dict_keys d
       ++ filter (fun y => negb (mem y (dict_keys d)))
            (first_occurrences (map fname_of (filter recognized file_names))))%list.
Proof.
  revert d. induction file_names as [|f file_names IH]; intros d; simpl.
  - now rewrite app_nil_r.
  - rewrite IH. unfold insert_link. destruct (recognized f); [|reflexivity].
    simpl. set (k := fname_of f).
    set (L := first_occurrences (map fname_of (filter recognized file_names))).
    destruct (in_dec string_dec k (dict_keys d)) as [Hin|Hout].
    + rewrite dict_keys_set_old by exact Hin.
      apply mem_In in Hin as Hm. rewrite Hm. simpl. f_equal.
      symmetry. apply filter_filter_implied.
      intros x Hx. apply negb_true_iff in Hx. apply negb_true_iff.
      apply String.eqb_neq. intros ->. congruence.
    + rewrite dict_keys_set_new by exact Hout.
      apply mem_false in Hout as Hm. rewrite Hm. simpl.
      rewrite <- app_assoc. simpl. do 2 f_equal.
      symmetry. apply filter_filter_both.
      intros x. rewrite mem_app. simpl. rewrite orb_false_r.
      destruct (x =? k) eqn:E; simpl.
      * rewrite String.eqb_sym, E. now rewrite orb_true_r.
      * rewrite String.eqb_sym, E. now rewrite orb_false_r.
Qed.

(** An entry is kept by the files whose base name is another one. *)
Lemma fold_insert_get_kept (file_names : list string) (d : dict) (k : string) :
  (forall g, In g file_names -> fname_of g <> k) ->
  dict_get k (fold_left (insert_link link) file_names d) = dict_get k d.
Proof.
  revert d. induction file_names as [|f file_names IH]; intros d H; simpl;
    [reflexivity|].
  rewrite IH by (intros g Hg; apply H; now right).
  unfold insert_link. destruct (recognized f); [|reflexivity].
  apply dict_get_set_other. apply H. now left.
Qed.

(** The last recognized file of a base name decides the entry. *)
Lemma fold_insert_get_last (pre post : list string) (f : string) (d : dict) :
  recognized f = true ->
  (forall g, In g post -> fname_of g <> fname_of f) ->
  dict_get (fname_of f)
    (fold_left (insert_link link) (pre ++ f :: post)%list d)
  = Some (link f).
Proof.
  intros Hf Hpost. rewrite fold_left_app. simpl.
  rewrite fold_insert_get_kept by exact Hpost.
  unfold insert_link at 1. rewrite Hf. apply dict_get_set_same.
Qed.

End Fold.

End DictFacts.

(* ----------------------------------------------------------------- *)
(** ** The mapping-building step: [convert] *)

Lemma dict_get_diagram_types (ftype : string) :
  dict_get ftype diagram_types
  = if ".mmd" =? ftype then Some "mermaid" else None.
Proof. reflexivity. Qed.

Lemma recognized_language (file_name : string) :
  recognized file_name = true ->
  dict_get (ftype_of (fname_of file_name)) diagram_types = Some "mermaid".
Proof.
  unfold recognized. rewrite dict_get_diagram_types.
  now destruct (".mmd" =? ftype_of (fname_of file_name)).
Qed.

Lemma unrecognized_language (file_name : string) :
  recognized file_name = false ->
  dict_get (ftype_of (fname_of file_name)) diagram_types = None.
Proof.
  unfold recognized.
  now destruct (dict_get (ftype_of (fname_of file_name)) diagram_types).
Qed.

(** Whether a file is recognized is decided by its base name. *)
Lemma recognized_fname (f g : string) :
  fname_of f = fname_of g -> recognized f = recognized g.
Proof. unfold recognized. now intros ->. Qed.

Lemma dict_get_None (k : string) (d : dict) :
  dict_get k d = None <-> ~ In k (dict_keys d).
Proof.
  unfold dict_keys. induction d as [|[k' v] d IH]; simpl; [tauto|].
  destruct (String.eqb_spec k' k) as [->|N].
  - split; [discriminate | tauto].
  - rewrite IH. tauto.
Qed.

Lemma dict_get_app_first (k v : string) (pre post : dict) :
  ~ In k (dict_keys pre) ->
  dict_get k (pre ++ (k, v) :: post)%list = Some v.
Proof.
  unfold dict_keys. induction pre as [|[k' v'] pre IH]; simpl; intros H.
  - now rewrite String.eqb_refl.
  - destruct (String.eqb_spec k' k) as [->|N]; [tauto|]. apply IH. tauto.
Qed.

Section Convert.

Context {libraries : Libraries}.

Lemma link_of_convert_file file_name format verbosity w f :
  fs w file_name = Some f ->
  exists w',
    convert_file file_name "mermaid" format verbosity w
    = (Ok (link_of (fs w) format file_name), w')
    /\ fs w' = fs w.
Proof.
  intros Hf. unfold link_of. rewrite Hf.
  exact (convert_file_run file_name "mermaid" format verbosity w f Hf).
Qed.

Lemma inputs_readable_tail w w' f file_names :
  fs w' = fs w -> inputs_readable w (f :: file_names) ->
  inputs_readable w' file_names.
Proof.
  intros E H g Hg R. rewrite E. apply H; [now right | exact R].
Qed.

(** The loop of [convert], run where every recognized input is readable:
    it returns, with the mapping folded over the inputs and one warning
    more for each input that is not recognized. *)
Lemma convert_for_run file_names format verbosity :
  forall replacements warnings w,
    inputs_readable w file_names ->
    exists w',
      convert_for file_names format verbosity replacements warnings w
      = (Ok (fold_left (insert_link (link_of (fs w) format)) file_names
               replacements,
             (warnings
              + Z.of_nat (length (filter (fun f => negb (recognized f))
                                    file_names)))%Z),
         w')
      /\ fs w' = fs w.
Proof.
  induction file_names as [|f file_names IH]; intros d n w H.
  - exists w. cbn. now rewrite Z.add_0_r.
  - cbn [convert_for fold_left filter].
    change (last_item (split "/" f)) with (fname_of f).
    change ("." ++ last_item (split "." (fname_of f)))
      with (ftype_of (fname_of f)).
    unfold insert_link at 2.
    destruct (recognized f) eqn:R.
    + rewrite (recognized_language f R).
      destruct (fs w f) as [file|] eqn:Ef.
      2:{ exfalso. apply (H f); [now left | exact R | exact Ef]. }
      destruct (link_of_convert_file f format verbosity w file Ef)
        as [w1 [E1 F1]].
      rewrite (bind_ok _ _ _ _ _ E1).
      destruct (IH (dict_set (fname_of f) (link_of (fs w) format f) d) n w1
                  (inputs_readable_tail w w1 f file_names F1 H))
        as [w' [E' F']].
      exists w'. rewrite E', F1. cbn [negb]. split; [reflexivity | congruence].
    + rewrite (unrecognized_language f R).
      set (msg := if (verbosity >=? 1)%Z then _ else _).
      set (w1 := {| fs := fs w; stdout := (stdout w ++ [colored msg "yellow"])%list |}).
      destruct (IH d (n + 1)%Z w1
                  (inputs_readable_tail w w1 f file_names eq_refl H))
        as [w' [E' F']].
      exists w'. change (bind (print (colored msg "yellow")) ?k w) with (k tt w1).
      cbn beta. rewrite E'. cbn [negb length fs] in *.
      match goal with
      | |- context [Z.of_nat (S ?l)] =>
          replace (n + Z.of_nat (S l))%Z with (n + 1 + Z.of_nat l)%Z by lia
      end.
      split; [reflexivity | exact F'].
Qed.

Lemma convert_run file_names format verbosity w :
  inputs_readable w file_names ->
  exists w',
    convert file_names format verbosity w
    = (Ok (fold_left (insert_link (link_of (fs w) format)) file_names []), w')
    /\ fs w' = fs w.
Proof.
  intros H. unfold convert.
  edestruct (run_quiet (when (verbosity >=? 1)%Z
                          (print (colored "Calculating conversions" "blue")))
               tt w) as [w1 [E1 F1]]; [auto with pure_db | auto with keeps_db|].
  rewrite (bind_ok _ _ _ _ _ E1).
  destruct (convert_for_run file_names format verbosity [] 0%Z w1)
    as [w2 [E2 F2]].
  { intros f Hf R. rewrite F1. now apply H. }
  rewrite (bind_ok _ _ _ _ _ E2). rewrite F1.
  set (n := (0 + _)%Z). cbn iota beta.
  edestruct (run_quiet
               (if (verbosity >=? 1)%Z && (n =? 0)%Z
                then print (colored "Conversion completed" "green") ;; print ""
                else if (verbosity >=? 1)%Z && (n >? 0)%Z
                then print (colored "Conversion completed with warnings" "yellow") ;;
                     print ""
                else if (n >? 0)%Z then print "" else ret tt)
               tt w2) as [w3 [E3 F3]].
  { destruct ((verbosity >=? 1)%Z && (n =? 0)%Z);
      [eapply pure_bind; auto with pure_db|].
    destruct ((verbosity >=? 1)%Z && (n >? 0)%Z);
      [eapply pure_bind; auto with pure_db|].
    destruct (n >? 0)%Z; auto with pure_db. }
  { auto 8 with keeps_db. }
  rewrite (bind_ok _ _ _ _ _ E3).
  exists w3. split; [reflexivity | congruence].
Qed.

(** The keys of the mapping that [convert] builds. *)
Lemma convert_keys link file_names :
  dict_keys (fold_left (insert_link link) file_names [])
  = first_occurrences (map fname_of (filter recognized file_names)).
Proof.
  rewrite DictFacts.fold_insert_keys. cbn.
  generalize (first_occurrences (map fname_of (filter recognized file_names))).
  intros l. induction l as [|x l IH]; cbn; congruence.
Qed.

End Convert.

(** C7: a file whose extension is not a key of [diagram_types] is skipped
    by [convert]: no entry is stored for it, [warnings] is increased by
    one, and the loop goes on with the files after it; such a file does
    not even have to exist.  Where every recognized input is readable,
    [convert] returns, the keys of the mapping are exactly the base names
    of the recognized inputs, and [warnings] has counted the others. *)
Theorem convert_skips_unrecognized {libraries : Libraries}
    (file_names : list string) (format : string) (verbosity : Z) (w : world) :
  inputs_readable w file_names ->
  exists replacements warnings,
    value_of (convert_for file_names format verbosity [] 0) w
    = Ok (replacements, warnings)
    /\ value_of (convert file_names format verbosity) w = Ok replacements
    /\ warnings
       = Z.of_nat (length (filter (fun f => negb (recognized f)) file_names))
    /\ (forall k,
          In k (dict_keys replacements) <->
          exists f, In f file_names /\ recognized f = true /\ fname_of f = k)
    /\ (forall f,
          In f file_names -> recognized f = false ->
          dict_get (fname_of f) replacements = None).
Proof.
  intros H.
  destruct (convert_for_run file_names format verbosity [] 0%Z w H)
    as [w1 [E1 _]].
  destruct (convert_run file_names format verbosity w H) as [w2 [E2 _]].
  rewrite Z.add_0_l in E1.
  eexists. eexists. unfold value_of. rewrite E1, E2.
  split; [reflexivity | split; [reflexivity | split; [reflexivity|]]].
  assert (K : forall k,
            In k (dict_keys (fold_left (insert_link (link_of (fs w) format))
                               file_names [])) <->
            exists f, In f file_names /\ recognized f = true /\ fname_of f = k).
  { intros k. rewrite convert_keys, DictFacts.first_occurrences_In, in_map_iff.
    split; intros [f Hf]; exists f; rewrite filter_In in *; tauto. }
  split; [exact K|].
  intros f Hf R. apply dict_get_None. rewrite K. intros [g [Hg [Rg E]]].
  rewrite (recognized_fname g f E) in Rg. congruence.
Qed.

Lemma convert_skips_unrecognized_witness :
  inputs_readable example_world ["one/a.mmd"; "notes.txt"; "missing.png"; "b.mmd"]
  /\ exists replacements,
       value_of
         (convert_for (libraries := example_libraries)
            ["one/a.mmd"; "notes.txt"; "missing.png"; "b.mmd"] "svg" 1 [] 0)
         example_world = Ok (replacements, 2%Z)
       /\ dict_keys replacements = ["a.mmd"; "b.mmd"].
Proof.
  assert (H : inputs_readable example_world
                ["one/a.mmd"; "notes.txt"; "missing.png"; "b.mmd"]).
  { intros f [<-|[<-|[<-|[<-|[]]]]] R; discriminate. }
  split; [exact H|].
  destruct (convert_skips_unrecognized (libraries := example_libraries)
              ["one/a.mmd"; "notes.txt"; "missing.png"; "b.mmd"] "svg" 1
              example_world H) as [replacements [warnings [E _]]].
  exists replacements. vm_compute in E. inversion E. split; reflexivity.
Defined.

(** C8: when several recognized inputs have the same base name, the
    mapping that [convert] builds has one entry under that name, and its
    value is the link of the last of them in the order of the inputs. *)
Theorem convert_last_write_wins {libraries : Libraries}
    (pre post : list string) (f format : string) (verbosity : Z) (w : world) :
  inputs_readable w (pre ++ f :: post)%list ->
  recognized f = true ->
  (forall g, In g post -> fname_of g <> fname_of f) ->
  exists replacements url,
    value_of (convert (pre ++ f :: post)%list format verbosity) w
    = Ok replacements
    /\ value_of (convert_file f "mermaid" format verbosity) w = Ok url
    /\ dict_get (fname_of f) replacements = Some url
    /\ count_occ string_dec (dict_keys replacements) (fname_of f) = 1%nat.
Proof.
  intros H R Hpost.
  destruct (convert_run (pre ++ f :: post)%list format verbosity w H)
    as [w1 [E1 _]].
  destruct (fs w f) as [file|] eqn:Ef.
  2:{ exfalso. apply (H f); [apply in_elt | exact R | exact Ef]. }
  destruct (link_of_convert_file f format verbosity w file Ef) as [w2 [E2 _]].
  eexists. eexists. unfold value_of. rewrite E1, E2.
  split; [reflexivity | split; [reflexivity|]].
  assert (G : dict_get (fname_of f)
                (fold_left (insert_link (link_of (fs w) format))
                   (pre ++ f :: post)%list [])
              = Some (link_of (fs w) format f))
    by now apply DictFacts.fold_insert_get_last.
  split; [exact G|].
  apply NoDup_count_occ'.
  - rewrite convert_keys. apply DictFacts.first_occurrences_NoDup.
  - destruct (in_dec string_dec (fname_of f)
                (dict_keys (fold_left (insert_link (link_of (fs w) format))
                              (pre ++ f :: post)%list []))) as [Hin|Hout];
      [exact Hin|].
    apply dict_get_None in Hout. congruence.
Qed.

Lemma convert_last_write_wins_witness :
  inputs_readable example_world (["one/a.mmd"; "b.mmd"] ++ "two/a.mmd" :: ["x.txt"])
  /\ recognized "two/a.mmd" = true
  /\ (forall g, In g ["x.txt"] -> fname_of g <> fname_of "two/a.mmd")
  /\ exists replacements,
       value_of
         (convert (libraries := example_libraries)
            (["one/a.mmd"; "b.mmd"] ++ "two/a.mmd" :: ["x.txt"]) "svg" 1)
         example_world = Ok replacements
       /\ dict_get "a.mmd" replacements
          = Some "https://kroki.io/mermaid/svg/Z3JhcGggTFI7IFgtLT5ZOw==".
Proof.
  assert (H1 : inputs_readable example_world
                 (["one/a.mmd"; "b.mmd"] ++ "two/a.mmd" :: ["x.txt"])).
  { intros f [<-|[<-|[<-|[<-|[]]]]] R; discriminate. }
  assert (H2 : forall g, In g ["x.txt"] -> fname_of g <> fname_of "two/a.mmd").
  { intros g [<-|[]]. discriminate. }
  split; [exact H1 | split; [reflexivity | split; [exact H2|]]].
  destruct (convert_last_write_wins (libraries := example_libraries)
              ["one/a.mmd"; "b.mmd"] ["x.txt"] "two/a.mmd" "svg" 1
              example_world H1 eq_refl H2)
    as [replacements [url [E1 [E2 [G _]]]]].
  exists replacements. split; [exact E1|].
  vm_compute in E2. inversion E2; subst url. exact G.
Defined.

Lemma has_char_app (c : ascii) (a b : string) :
  has_char c (a ++ b) = has_char c a || has_char c b.
Proof.
  induction a as [|x a IH]; [reflexivity|].
  cbn [append has_char]. now rewrite IH, orb_assoc.
Qed.

(** The base name of a path: what follows the directory part. *)
Lemma fname_of_path (dir base : string) :
  dir = "" \/ (exists d, dir = d ++ "/") ->
  has_char "/" base = false ->
  fname_of (dir ++ base) = base.
Proof.
  intros [-> | [d ->]] H; unfold fname_of.
  - cbn [append]. now rewrite (split_no_sep _ _ H).
  - rewrite append_assoc. apply (last_split_suffix "/" d base H).
Qed.

Section ConvertOne.

Context {libraries : Libraries}.

(** [convert] on one input that is recognized and readable. *)
Lemma convert_single_recognized file_name format verbosity w f :
  recognized file_name = true ->
  fs w file_name = Some f ->
  exists url,
    value_of (convert_file file_name "mermaid" format verbosity) w = Ok url
    /\ value_of (convert [file_name] format verbosity) w
       = Ok [(fname_of file_name, url)].
Proof.
  intros R Hf.
  destruct (convert_run [file_name] format verbosity w) as [w1 [E1 _]].
  { intros g [<-|[]] _. congruence. }
  destruct (link_of_convert_file file_name format verbosity w f Hf)
    as [w2 [E2 _]].
  eexists. unfold value_of. rewrite E1, E2. split; [reflexivity|].
  cbn [fold_left fst]. unfold insert_link. now rewrite R.
Qed.

(** [convert] on one input that is not recognized. *)
Lemma convert_single_skipped file_name format verbosity w :
  recognized file_name = false ->
  value_of (convert_for [file_name] format verbosity [] 0) w = Ok ([], 1%Z)
  /\ value_of (convert [file_name] format verbosity) w = Ok [].
Proof.
  intros R.
  assert (I : inputs_readable w [file_name]).
  { intros g [<-|[]] Rg. congruence. }
  destruct (convert_for_run [file_name] format verbosity [] 0%Z w I)
    as [w1 [E1 _]].
  destruct (convert_run [file_name] format verbosity w I) as [w2 [E2 _]].
  unfold value_of. rewrite E1, E2. cbn [fold_left filter fst].
  unfold insert_link. rewrite R. split; reflexivity.
Qed.

End ConvertOne.

(** C9: the extension that [convert] derives is a dot followed by what
    comes after the last dot of the base name, and by the whole base name
    when it has no dot.  So [convert] takes a file [dir/stem.ext], where
    [ext] has no dot, exactly when [ext] is [mmd], and stores its link
    under [stem.mmd]; and of the base names without a dot it takes [mmd]
    alone, as a mermaid diagram, and skips every other one with a
    warning. *)
Theorem extension_of_dotless_name {libraries : Libraries} :
  (forall stem ext,
     has_char "." ext = false -> ftype_of (stem ++ "." ++ ext) = "." ++ ext)
  /\ (forall fname, has_char "." fname = false -> ftype_of fname = "." ++ fname)
  /\ (forall file_name,
        has_char "." (fname_of file_name) = false ->
        (recognized file_name = true <-> fname_of file_name = "mmd"))
  /\ (forall file_name format verbosity w f,
        fname_of file_name = "mmd" ->
        fs w file_name = Some f ->
        exists url,
          value_of (convert_file file_name "mermaid" format verbosity) w = Ok url
          /\ value_of (convert [file_name] format verbosity) w
             = Ok [("mmd", url)])
  /\ (forall file_name format verbosity w,
        has_char "." (fname_of file_name) = false ->
        fname_of file_name <> "mmd" ->
        value_of (convert_for [file_name] format verbosity [] 0) w
        = Ok ([], 1%Z)
        /\ value_of (convert [file_name] format verbosity) w = Ok [])
  /\ (forall dir stem ext format verbosity w,
        dir = "" \/ (exists d, dir = d ++ "/") ->
        has_char "/" stem = false ->
        has_char "/" ext = false ->
        has_char "." ext = false ->
        (ext = "mmd" ->
         forall f,
           fs w (dir ++ stem ++ "." ++ ext) = Some f ->
           exists url,
             value_of (convert_file (dir ++ stem ++ "." ++ ext) "mermaid"
                         format verbosity) w = Ok url
             /\ value_of (convert [dir ++ stem ++ "." ++ ext] format verbosity)
                  w
                = Ok [(stem ++ ".mmd", url)])
        /\ (ext <> "mmd" ->
            value_of (convert_for [dir ++ stem ++ "." ++ ext] format verbosity
                        [] 0) w
            = Ok ([], 1%Z)
            /\ value_of (convert [dir ++ stem ++ "." ++ ext] format verbosity) w
               = Ok []))
  /\ (forall dir base format verbosity w,
        dir = "" \/ (exists d, dir = d ++ "/") ->
        has_char "/" base = false ->
        has_char "." base = false ->
        (base = "mmd" ->
         forall f,
           fs w (dir ++ base) = Some f ->
           exists url,
             value_of (convert_file (dir ++ base) "mermaid" format verbosity) w
             = Ok url
             /\ value_of (convert [dir ++ base] format verbosity) w
                = Ok [("mmd", url)])
        /\ (base <> "mmd" ->
            value_of (convert_for [dir ++ base] format verbosity [] 0) w
            = Ok ([], 1%Z)
            /\ value_of (convert [dir ++ base] format verbosity) w = Ok [])).
Proof.
  assert (A0 : forall stem ext,
            has_char "." ext = false ->
            ftype_of (stem ++ "." ++ ext) = "." ++ ext).
  { intros stem ext H. unfold ftype_of. f_equal.
    apply (last_split_suffix "." stem ext H). }
  assert (A : forall fname,
            has_char "." fname = false -> ftype_of fname = "." ++ fname).
  { intros fname H. unfold ftype_of. now rewrite (split_no_sep _ _ H). }
  assert (B : forall file_name,
            has_char "." (fname_of file_name) = false ->
            (recognized file_name = true <-> fname_of file_name = "mmd")).
  { intros file_name H. unfold recognized.
    rewrite dict_get_diagram_types, (A _ H).
    change (".mmd" =? "." ++ fname_of file_name)
      with ("mmd" =? fname_of file_name).
    destruct (String.eqb_spec "mmd" (fname_of file_name)); split; congruence. }
  split; [exact A0 | split; [exact A | split; [exact B|]]].
  split; [|split; [|split]].
  - intros file_name format verbosity w f Hname Hf.
    assert (R : recognized file_name = true).
    { apply B; [now rewrite Hname | exact Hname]. }
    destruct (convert_single_recognized file_name format verbosity w f R Hf)
      as [url [E1 E2]].
    exists url. rewrite Hname in E2. now split.
  - intros file_name format verbosity w H Hname.
    apply convert_single_skipped.
    destruct (recognized file_name) eqn:R; [|reflexivity].
    apply B in R; [congruence | exact H].
  - intros dir stem ext format verbosity w Hdir Hstem Hext Hdot.
    assert (Hbase : has_char "/" (stem ++ "." ++ ext) = false).
    { rewrite has_char_app, Hstem. cbn. exact Hext. }
    pose proof (fname_of_path dir (stem ++ "." ++ ext) Hdir Hbase) as Hname.
    assert (R : recognized (dir ++ stem ++ "." ++ ext) = ("mmd" =? ext)).
    { unfold recognized. rewrite Hname, (A0 stem ext Hdot).
      rewrite dict_get_diagram_types.
      change (".mmd" =? "." ++ ext) with ("mmd" =? ext).
      now destruct ("mmd" =? ext). }
    split.
    + intros -> f Hf.
      destruct (convert_single_recognized _ format verbosity w f R Hf)
        as [url [E1 E2]].
      exists url. rewrite Hname in E2. now split.
    + intros Hne. apply convert_single_skipped. rewrite R.
      apply String.eqb_neq. congruence.
  - intros dir base format verbosity w Hdir Hbase Hdot.
    pose proof (fname_of_path dir base Hdir Hbase) as Hname.
    assert (R : recognized (dir ++ base) = ("mmd" =? base)).
    { unfold recognized. rewrite Hname, (A base Hdot).
      rewrite dict_get_diagram_types.
      change (".mmd" =? "." ++ base) with ("mmd" =? base).
      now destruct ("mmd" =? base). }
    split.
    + intros -> f Hf.
      destruct (convert_single_recognized _ format verbosity w f R Hf)
        as [url [E1 E2]].
      exists url. rewrite Hname in E2. now split.
    + intros Hne. apply convert_single_skipped. rewrite R.
      apply String.eqb_neq. congruence.
Qed.

Lemma extension_of_dotless_name_witness :
  ftype_of "diagram.v2.mmd" = ".mmd"
  /\ ftype_of "Makefile" = ".Makefile"
  /\ recognized "dir/mmd" = true
  /\ value_of (convert (libraries := example_libraries) ["mmd"] "svg" 1)
       example_world
     = Ok [("mmd", "https://kroki.io/mermaid/svg/Z3JhcGggVEQ7IEMtLT5EOw==")]
  /\ value_of (convert (libraries := example_libraries) ["Makefile"] "svg" 1)
       example_world
     = Ok []
  /\ value_of (convert (libraries := example_libraries) ["one/a.mmd"] "svg" 1)
       example_world
     = Ok [("a.mmd", "https://kroki.io/mermaid/svg/Z3JhcGggVEQ7IEEtLT5COw==")]
  /\ value_of (convert (libraries := example_libraries) ["one/a.mmd.txt"]
                 "svg" 1) example_world
     = Ok [].
Proof.
  destruct (extension_of_dotless_name (libraries := example_libraries))
    as [H1 [H2 [H3 [H4 [H5 [H6 _]]]]]].
  split; [exact (H1 "diagram.v2" "mmd" eq_refl)|].
  split; [exact (H2 "Makefile" eq_refl)|].
  split; [exact (proj2 (H3 "dir/mmd" eq_refl) eq_refl)|].
  split; [|split; [|split]].
  - destruct (H4 "mmd" "svg" 1%Z example_world
                {| f_text := "graph TD; C-->D;"; f_writable := true |}
                eq_refl eq_refl) as [url [E1 E2]].
    vm_compute in E1. inversion E1; subst url. exact E2.
  - refine (proj2 (H5 "Makefile" "svg" 1%Z example_world eq_refl _)).
    discriminate.
  - destruct (proj1 (H6 "one/" "a" "mmd" "svg" 1%Z example_world
                       (or_intror (ex_intro _ "one" eq_refl))
                       eq_refl eq_refl eq_refl)
                eq_refl
                {| f_text := "graph TD; A-->B;"; f_writable := true |}
                eq_refl) as [url [E1 E2]].
    vm_compute in E1. inversion E1; subst url. exact E2.
  - refine (proj2 (proj2 (H6 "one/" "a.mmd" "txt" "svg" 1%Z example_world
                            (or_intror (ex_intro _ "one" eq_refl))
                            eq_refl eq_refl eq_refl) _)).
    discriminate.
Defined.

(** C10: the mapping that [convert] returns iterates over its keys in the
    order in which the recognized base names first occur in the list of
    inputs; a later file of the same base name changes the value, which
    becomes the link of that file, and not the place.  So [check_line]
    tries the placeholders in that order: the first base name in it whose
    placeholder occurs in the line gives the replacement, with the link
    of the last input of that base name. *)
Theorem convert_iteration_order {libraries : Libraries}
    (file_names : list string) (format : string) (verbosity : Z) (w : world) :
  inputs_readable w file_names ->
  exists replacements,
    value_of (convert file_names format verbosity) w = Ok replacements
    /\ dict_keys replacements
       = first_occurrences (map fname_of (filter recognized file_names))
    /\ (forall line index verbosity' w' before name after,
          first_occurrences (map fname_of (filter recognized file_names))
          = (before ++ name :: after)%list ->
          (forall name', In name' before ->
             ~ occurs_in (placeholder name') line) ->
          occurs_in (placeholder name) line ->
          exists link,
            dict_get name replacements = Some link
            /\ value_of (check_line line index replacements verbosity') w'
               = Ok ("![" ++ name ++ "](" ++ link ++ ")" ++ nl))
    /\ (forall earlier f later,
          file_names = (earlier ++ f :: later)%list ->
          recognized f = true ->
          (forall g, In g later -> fname_of g <> fname_of f) ->
          exists link,
            value_of (convert_file f "mermaid" format verbosity) w = Ok link
            /\ dict_get (fname_of f) replacements = Some link
            /\ forall line index verbosity' w' before after,
                 first_occurrences (map fname_of (filter recognized file_names))
                 = (before ++ fname_of f :: after)%list ->
                 (forall name', In name' before ->
                    ~ occurs_in (placeholder name') line) ->
                 occurs_in (placeholder (fname_of f)) line ->
                 value_of (check_line line index replacements verbosity') w'
                 = Ok ("![" ++ fname_of f ++ "](" ++ link ++ ")" ++ nl)).
Proof.
  intros H.
  destruct (convert_run file_names format verbosity w H) as [w1 [E1 _]].
  eexists. unfold value_of at 1. rewrite E1.
  split; [reflexivity | split; [apply convert_keys|]].
  set (d := fold_left (insert_link (link_of (fs w) format)) file_names []) in *.
  assert (C : forall line index verbosity' w' before name after,
            first_occurrences (map fname_of (filter recognized file_names))
            = (before ++ name :: after)%list ->
            (forall name', In name' before ->
               ~ occurs_in (placeholder name') line) ->
            occurs_in (placeholder name) line ->
            exists link,
              dict_get name d = Some link
              /\ value_of (check_line line index d verbosity') w'
                 = Ok ("![" ++ name ++ "](" ++ link ++ ")" ++ nl)).
  { intros line index verbosity' w' before name after Horder Hbefore Hname.
    assert (K : map fst d = (before ++ name :: after)%list).
    { rewrite <- Horder. apply convert_keys. }
    apply map_eq_app in K as [pre [rest [Ed [Epre Erest]]]].
    apply map_eq_cons in Erest as [[name0 link] [post [Er [En Epost]]]].
    cbn in En. subst name0 rest before.
    exists link. rewrite Ed. split.
    - apply dict_get_app_first. intros Hin. apply (Hbefore name Hin Hname).
    - apply check_line_first_match; [|exact Hname].
      intros name' link' Hin. apply Hbefore.
      apply (in_map fst) in Hin. exact Hin. }
  split; [exact C|].
  intros earlier f later Hfiles R Hlater.
  destruct (fs w f) as [file|] eqn:Ef.
  2:{ exfalso.
      apply (H f); [rewrite Hfiles; apply in_elt | exact R | exact Ef]. }
  destruct (link_of_convert_file f format verbosity w file Ef) as [w2 [E2 _]].
  assert (G : dict_get (fname_of f) d = Some (link_of (fs w) format f)).
  { unfold d. rewrite Hfiles. now apply DictFacts.fold_insert_get_last. }
  exists (link_of (fs w) format f). unfold value_of at 1. rewrite E2.
  split; [reflexivity | split; [exact G|]].
  intros line index verbosity' w' before after Horder Hbefore Hname.
  destruct (C line index verbosity' w' before (fname_of f) after
              Horder Hbefore Hname) as [link [G' V]].
  rewrite G in G'. inversion G' as [El]. rewrite El. exact V.
Qed.

Lemma convert_iteration_order_witness :
  inputs_readable example_world ["b.mmd"; "one/a.mmd"; "x.txt"; "two/a.mmd"]
  /\ exists replacements,
       value_of
         (convert (libraries := example_libraries)
            ["b.mmd"; "one/a.mmd"; "x.txt"; "two/a.mmd"] "svg" 1)
         example_world = Ok replacements
       /\ dict_keys replacements = ["b.mmd"; "a.mmd"]
       /\ dict_get "a.mmd" replacements
          = Some "https://kroki.io/mermaid/svg/Z3JhcGggTFI7IFgtLT5ZOw==".
Proof.
  assert (H : inputs_readable example_world
                ["b.mmd"; "one/a.mmd"; "x.txt"; "two/a.mmd"]).
  { intros f [<-|[<-|[<-|[<-|[]]]]] R; discriminate. }
  split; [exact H|].
  destruct (convert_iteration_order (libraries := example_libraries)
              ["b.mmd"; "one/a.mmd"; "x.txt"; "two/a.mmd"] "svg" 1
              example_world H) as [replacements [E [K [_ L]]]].
  exists replacements. split; [exact E | split; [exact K|]].
  destruct (L ["b.mmd"; "one/a.mmd"; "x.txt"] "two/a.mmd" [] eq_refl eq_refl)
    as [link [E2 [G _]]].
  { intros g []. }
  vm_compute in E2. inversion E2; subst link. exact G.
Defined.

(** The scenario of the specification, end to end: the input [a.mmd] with
    the text [graph TD; A-->B;], the format [svg], and a document line
    [![a.mmd]]. *)
Lemma end_to_end_scenario {libraries : Libraries}
    (w : world) (f : file) (verbosity : Z) :
  fs w "a.mmd" = Some f ->
  f_text f = "graph TD; A-->B;" ->
  exists replacements link,
    value_of (convert ["a.mmd"] "svg" verbosity) w = Ok replacements
    /\ link = "https://kroki.io/mermaid/svg/" ++ payload "graph TD; A-->B;"
    /\ dict_get "a.mmd" replacements = Some link
    /\ forall index verbosity' w',
         value_of (check_line ("![a.mmd]" ++ nl) index replacements verbosity') w'
         = Ok ("![a.mmd](" ++ link ++ ")" ++ nl).
Proof.
  intros Hf Htext.
  destruct (convert_run ["a.mmd"] "svg" verbosity w) as [w1 [E1 _]].
  { intros g [<-|[]] _. congruence. }
  eexists. eexists. unfold value_of at 1. rewrite E1.
  split; [reflexivity | split; [reflexivity|]].
  cbn [fold_left]. unfold insert_link.
  change (recognized "a.mmd") with true. change (fname_of "a.mmd") with "a.mmd".
  unfold link_of. rewrite Hf, Htext. cbn [dict_set].
  split; [reflexivity|].
  intros index verbosity' w'.
  apply (check_line_first_match ("![a.mmd]" ++ nl) index verbosity' w' [] []).
  - intros name' link' [].
  - apply contains_spec. reflexivity.
Qed.

(* ================================================================= *)
(** * Part III: further properties of the program *)

(* ----------------------------------------------------------------- *)
(** ** Runs and what they print *)

Module RunFacts.

Lemma returns_elim {A} (m : M A) (w : world) (a : A) (out : list string) :
  returns_printing m w a out ->
  value_of m w = Ok a
  /\ fs (world_after m w) = fs w
  /\ stdout (world_after m w) = (stdout w ++ out)%list.
Proof.
  intros [w' [E [F S]]]. unfold value_of, world_after. rewrite E. auto.
Qed.

Lemma raises_elim {A} (m : M A) (w : world) (e : exn) (out : list string) :
  raises_printing m w e out ->
  value_of m w = Raise e
  /\ fs (world_after m w) = fs w
  /\ stdout (world_after m w) = (stdout w ++ out)%list.
Proof.
  intros [w' [E [F S]]]. unfold value_of, world_after. rewrite E. auto.
Qed.

Lemma returns_ret {A} (a : A) (w : world) : returns_printing (ret a) w a [].
Proof. exists w. now rewrite app_nil_r. Qed.

Lemma returns_lift {A} (a : A) (w : world) :
  returns_printing (lift (Ok a)) w a [].
Proof. exists w. now rewrite app_nil_r. Qed.

Lemma raises_raise {A} (e : exn) (w : world) :
  raises_printing (@raise A e) w e [].
Proof. exists w. now rewrite app_nil_r. Qed.

Lemma returns_print (s : string) (w : world) :
  returns_printing (print s) w tt [s].
Proof. eexists. split; [reflexivity|]. split; reflexivity. Qed.

Lemma returns_bind {A B} (m : M A) (k : A -> M B) (w : world) (a : A) (b : B)
    (o1 o2 : list string) :
  returns_printing m w a o1 ->
  (forall w1, fs w1 = fs w -> returns_printing (k a) w1 b o2) ->
  returns_printing (bind m k) w b (o1 ++ o2).
Proof.
  intros [w1 [E1 [F1 S1]]] Hk.
  destruct (Hk w1 F1) as [w2 [E2 [F2 S2]]].
  exists w2. rewrite (bind_ok _ _ _ _ _ E1).
  split; [exact E2|]. split; [congruence|].
  now rewrite S2, S1, app_assoc.
Qed.

Lemma raises_after {A B} (m : M A) (k : A -> M B) (w : world) (a : A)
    (e : exn) (o1 o2 : list string) :
  returns_printing m w a o1 ->
  (forall w1, fs w1 = fs w -> raises_printing (k a) w1 e o2) ->
  raises_printing (bind m k) w e (o1 ++ o2).
Proof.
  intros [w1 [E1 [F1 S1]]] Hk.
  destruct (Hk w1 F1) as [w2 [E2 [F2 S2]]].
  exists w2. rewrite (bind_ok _ _ _ _ _ E1).
  split; [exact E2|]. split; [congruence|].
  now rewrite S2, S1, app_assoc.
Qed.

Lemma raises_bind {A B} (m : M A) (k : A -> M B) (w : world) (e : exn)
    (out : list string) :
  raises_printing m w e out -> raises_printing (bind m k) w e out.
Proof.
  intros [w1 [E1 [F1 S1]]]. exists w1.
  rewrite (bind_raise _ _ _ _ _ E1). auto.
Qed.

Lemma returns_when (b : bool) (m : M unit) (w : world) (out : list string) :
  returns_printing m w tt out ->
  returns_printing (when b m) w tt (if b then out else []).
Proof. destruct b; [trivial | intros _; apply returns_ret]. Qed.

Lemma returns_read_file (path : string) (w : world) (f : file) :
  fs w path = Some f -> returns_printing (read_file path) w (f_text f) [].
Proof.
  intros H. exists w. rewrite (read_file_run path w f H).
  now rewrite app_nil_r.
Qed.

Lemma raises_read_file (path : string) (w : world) :
  fs w path = None -> raises_printing (read_file path) w (OSError path) [].
Proof.
  intros H. exists w. unfold read_file. rewrite H. now rewrite app_nil_r.
Qed.

(** The same run with the output written in another way. *)
Lemma returns_output {A} (m : M A) (w : world) (a : A) (o1 o2 : list string) :
  o1 = o2 -> returns_printing m w a o1 -> returns_printing m w a o2.
Proof. now intros ->. Qed.

Lemma raises_output {A} (m : M A) (w : world) (e : exn) (o1 o2 : list string) :
  o1 = o2 -> raises_printing m w e o1 -> raises_printing m w e o2.
Proof. now intros ->. Qed.

Lemma touches_only_keeps {A} (path : string) (m : M A) :
  keeps_files m -> touches_only path m.
Proof. intros H w p _. now rewrite H. Qed.

Lemma touches_only_bind {A B} (path : string) (m : M A) (k : A -> M B) :
  touches_only path m -> (forall a, touches_only path (k a)) ->
  touches_only path (bind m k).
Proof.
  intros Hm Hk w p Hp. rewrite world_bind.
  destruct (value_of m w); [rewrite Hk by exact Hp|]; now apply Hm.
Qed.

Lemma touches_only_write_file (path : string) (lines : list string) :
  touches_only path (write_file path lines).
Proof.
  intros w p Hp. unfold world_after, write_file.
  destruct (fs w path) as [[text [|]]|]; cbn; unfold fs_update;
    try reflexivity; apply String.eqb_neq in Hp; now rewrite Hp.
Qed.

End RunFacts.
Import RunFacts.

(* ----------------------------------------------------------------- *)
(** ** Base names, extensions and lines *)

Module PathFacts.

Lemma last_item_cons (x y : string) (l : list string) :
  last_item (x :: y :: l) = last_item (y :: l).
Proof. reflexivity. Qed.

(** The last item of a split holds no separator. *)
Lemma last_split_no_sep (sep : ascii) (s : string) :
  has_char sep (last_item (split sep s)) = false.
Proof.
  induction s as [|c s IH]; [reflexivity|].
  cbn [split]. destruct (Ascii.eqb c sep) eqn:E.
  - pose proof (split_not_nil sep s) as N.
    destruct (split sep s) as [|x xs]; [congruence|].
    rewrite last_item_cons. exact IH.
  - destruct (split sep s) as [|x xs]; [cbn; now rewrite E|].
    destruct xs as [|y ys].
    + cbn in *. now rewrite E, IH.
    + rewrite last_item_cons. rewrite last_item_cons in IH. exact IH.
Qed.

(** A string is its last item, or ends with a separator and its last
    item. *)
Lemma last_split_cases (sep : ascii) (s : string) :
  last_item (split sep s) = s
  \/ exists a, s = a ++ String sep (last_item (split sep s)).
Proof.
  induction s as [|c s IH]; [now left|].
  cbn [split]. destruct (Ascii.eqb_spec c sep) as [->|N].
  - right. pose proof (split_not_nil sep s) as Hn.
    destruct (split sep s) as [|x xs]; [congruence|].
    rewrite last_item_cons.
    destruct IH as [IH | [a IH]].
    + exists "". cbn [append]. now rewrite IH.
    + exists (String sep a). cbn [append]. now rewrite <- IH.
  - destruct (split sep s) as [|x xs] eqn:E.
    { exfalso. now apply (split_not_nil sep s). }
    destruct xs as [|y ys].
    + destruct IH as [IH | [a IH]].
      * left. cbn in *. now rewrite IH.
      * exfalso. cbn in IH. rewrite IH in E.
        destruct (split_app_sep sep a x) as [l [Hl El]]. rewrite El in E.
        pose proof (split_not_nil sep x) as Hx.
        destruct l as [|u [|v l]]; [congruence| |discriminate].
        destruct (split sep x); [congruence | discriminate].
    + rewrite last_item_cons. rewrite last_item_cons in IH.
      destruct IH as [IH | [a IH]].
      * exfalso. assert (H : has_char sep s = false).
        { rewrite <- IH. rewrite <- last_item_cons with (x := x).
          rewrite <- E. apply last_split_no_sep. }
        rewrite (split_no_sep _ _ H) in E. discriminate.
      * right. exists (String c a). cbn [append]. now rewrite <- IH.
Qed.

Lemma occurs_in_trans (a b c : string) :
  occurs_in a b -> occurs_in b c -> occurs_in a c.
Proof.
  intros [x [y ->]] [u [v ->]]. exists (u ++ x), (y ++ v).
  now rewrite !append_assoc.
Qed.

Lemma readlines_nil (text : string) : readlines text = [] -> text = "".
Proof.
  destruct text as [|c text]; [reflexivity|]. cbn.
  destruct (Ascii.eqb c LF); [discriminate|].
  destruct (readlines text); discriminate.
Qed.

(** Every line of a text is a part of it. *)
Lemma readlines_occurs (text line : string) :
  In line (readlines text) -> occurs_in line text.
Proof.
  revert line. induction text as [|c text IH]; intros line; [intros []|].
  cbn [readlines]. destruct (Ascii.eqb_spec c LF) as [->|N].
  - intros [<-|H].
    + exists "", text. reflexivity.
    + destruct (IH line H) as [a [b ->]]. exists (String LF a), b. reflexivity.
  - pose proof (writelines_readlines text) as W.
    destruct (readlines text) as [|l ls] eqn:E.
    + intros [<-|[]]. apply readlines_nil in E. subst. now exists "", "".
    + unfold writelines in W. rewrite concat_cons in W.
      intros [<-|H].
      * exists "", (String.concat "" ls). cbn. now rewrite W.
      * destruct (IH line (or_intror H)) as [a [b ->]].
        exists (String c a), b. reflexivity.
Qed.

End PathFacts.
Import PathFacts.

(* ----------------------------------------------------------------- *)
(** ** Which files [convert] takes, and under which keys *)

Lemma recognized_cases (file_name : string) :
  recognized file_name = true <->
  fname_of file_name = "mmd"
  \/ exists stem, fname_of file_name = stem ++ ".mmd".
Proof.
  unfold recognized. rewrite dict_get_diagram_types. unfold ftype_of.
  set (fname := fname_of file_name).
  change (".mmd" =? "." ++ last_item (split "." fname))
    with ("mmd" =? last_item (split "." fname)).
  split.
  - destruct (String.eqb_spec "mmd" (last_item (split "." fname))) as [E|N];
      [intros _ | discriminate].
    destruct (last_split_cases "." fname) as [H | [a H]].
    + left. congruence.
    + right. exists a. rewrite H at 1. now rewrite <- E.
  - intros [-> | [stem ->]]; [reflexivity|].
    rewrite (last_split_suffix "." stem "mmd" eq_refl). reflexivity.
Qed.

(** The base name of a path is the part after its last [/], and the whole
    path where it has none. *)
Lemma fname_of_iff (file_name key : string) :
  fname_of file_name = key <->
  (file_name = key \/ exists dir, file_name = dir ++ "/" ++ key)
  /\ has_char "/" key = false.
Proof.
  split.
  - intros <-. split; [|apply last_split_no_sep].
    unfold fname_of.
    destruct (last_split_cases "/" file_name) as [E | [a E]].
    + left. now rewrite E.
    + right. exists a. exact E.
  - intros [[-> | [dir ->]] H].
    + exact (fname_of_path "" key (or_introl eq_refl) H).
    + exact (last_split_suffix "/" dir key H).
Qed.

(** X1: [convert] takes an input exactly when its base name, the part of
    the path after the last [/], is [mmd] or ends in [.mmd]: where every
    recognized input is readable, the keys of the mapping that [convert]
    returns are the strings without [/] that are [mmd] or end in [.mmd]
    and that are an input or follow a [/] at the end of an input. *)
Theorem convert_takes_mmd_names {libraries : Libraries}
    (file_names : list string) (format : string) (verbosity : Z) (w : world) :
  inputs_readable w file_names ->
  exists replacements,
    value_of (convert file_names format verbosity) w = Ok replacements
    /\ forall key,
         In key (dict_keys replacements) <->
         exists file_name,
           In file_name file_names
           /\ (file_name = key \/ exists dir, file_name = dir ++ "/" ++ key)
           /\ has_char "/" key = false
           /\ (key = "mmd" \/ exists stem, key = stem ++ ".mmd").
Proof.
  intros H. destruct (convert_run file_names format verbosity w H) as [w1 [E _]].
  eexists. unfold value_of. rewrite E. split; [reflexivity|].
  intros key. rewrite convert_keys, DictFacts.first_occurrences_In, in_map_iff.
  split.
  - intros [f [Hk Hf]]. apply filter_In in Hf as [Hin R].
    exists f. split; [exact Hin|].
    destruct (proj1 (fname_of_iff f key) Hk) as [Hp Hs].
    split; [exact Hp | split; [exact Hs|]].
    rewrite <- Hk. now apply recognized_cases.
  - intros [f [Hin [Hp [Hs Hm]]]]. exists f.
    assert (Hk : fname_of f = key) by (apply fname_of_iff; now split).
    split; [exact Hk|]. apply filter_In. split; [exact Hin|].
    apply recognized_cases. now rewrite Hk.
Qed.

Lemma convert_takes_mmd_names_witness :
  inputs_readable example_world
    ["dir.mmd/readme"; "A.MMD"; "x.mmd."; "one/a.mmd"; "mmd"]
  /\ exists replacements,
       value_of
         (convert (libraries := example_libraries)
            ["dir.mmd/readme"; "A.MMD"; "x.mmd."; "one/a.mmd"; "mmd"] "svg" 1)
         example_world
       = Ok replacements
       /\ dict_keys replacements = ["a.mmd"; "mmd"]
       /\ In "a.mmd" (dict_keys replacements).
Proof.
  assert (H : inputs_readable example_world
                ["dir.mmd/readme"; "A.MMD"; "x.mmd."; "one/a.mmd"; "mmd"]).
  { intros f [<-|[<-|[<-|[<-|[<-|[]]]]]] R; discriminate. }
  split; [exact H|].
  destruct (convert_takes_mmd_names (libraries := example_libraries)
              ["dir.mmd/readme"; "A.MMD"; "x.mmd."; "one/a.mmd"; "mmd"]
              "svg" 1 example_world H) as [replacements [E K]].
  exists replacements. split; [exact E|]. split.
  - vm_compute in E. inversion E. reflexivity.
  - apply K. exists "one/a.mmd".
    split; [right; right; right; now left|].
    split; [right; now exists "one"|].
    split; [reflexivity|]. right. now exists "a".
Defined.

Section ConvertMore.

Context {libraries : Libraries}.

Lemma keeps_convert_for file_names format verbosity :
  forall replacements warnings,
    keeps_files (convert_for file_names format verbosity replacements warnings).
Proof.
  induction file_names as [|f file_names IH]; intros d n;
    cbn [convert_for]; [apply keeps_ret|].
  destruct (dict_get _ diagram_types).
  - apply keeps_bind; [apply keeps_convert_file | intros url; apply IH].
  - apply keeps_bind; [apply keeps_print | intros _; apply IH].
Qed.

Lemma keeps_convert file_names format verbosity :
  keeps_files (convert file_names format verbosity).
Proof.
  unfold convert. apply keeps_bind; [auto with keeps_db | intros _].
  apply keeps_bind; [apply keeps_convert_for | intros [d n]].
  auto 10 with keeps_db.
Qed.

Lemma convert_file_returns file_name format verbosity w f :
  fs w file_name = Some f ->
  returns_printing (convert_file file_name "mermaid" format verbosity) w
    (link_of (fs w) format file_name)
    (if (verbosity >=? 2)%Z
     then [colored (tab ++ "Processed file: " ++ file_name) "green"] else []).
Proof.
  intros Hf. unfold convert_file.
  apply (returns_bind _ _ w (f_text f) _ [] _ (returns_read_file _ _ _ Hf)).
  intros w1 F1.
  apply (returns_bind _ _ w1 (payload (f_text f)) _ [] _).
  { unfold payload.
    rewrite Base64Facts.decode_ascii_url_safe
      by apply Base64Facts.url_safe_encoding.
    apply returns_lift. }
  intros w2 F2.
  eapply returns_output;
    [|eapply returns_bind;
       [apply returns_when, returns_print | intros w3 F3]].
  { apply app_nil_r. }
  unfold str_format. rewrite korki_url_format_eval.
  unfold link_of. rewrite Hf. apply returns_lift.
Qed.

(** The loop of [convert] where every recognized input is readable: what
    it returns and what it prints. *)
Lemma convert_for_returns file_names format verbosity :
  forall replacements warnings w,
    inputs_readable w file_names ->
    returns_printing
      (convert_for file_names format verbosity replacements warnings) w
      (fold_left (insert_link (link_of (fs w) format)) file_names replacements,
       (warnings
        + Z.of_nat (length (filter (fun f => negb (recognized f)) file_names)))%Z)
      (convert_output verbosity file_names).
Proof.
  induction file_names as [|f file_names IH]; intros d n w H.
  - cbn. rewrite Z.add_0_r. apply returns_ret.
  - cbn [convert_for fold_left filter convert_output flat_map].
    change (last_item (split "/" f)) with (fname_of f).
    change ("." ++ last_item (split "." (fname_of f)))
      with (ftype_of (fname_of f)).
    unfold insert_link at 2. unfold file_output at 1.
    destruct (recognized f) eqn:R.
    + rewrite (recognized_language f R).
      destruct (fs w f) as [file|] eqn:Ef.
      2:{ exfalso. apply (H f); [now left | exact R | exact Ef]. }
      eapply returns_bind; [apply (convert_file_returns _ _ _ _ file Ef)|].
      intros w1 F1. cbn [negb]. rewrite <- F1.
      apply IH. apply (inputs_readable_tail w w1 f file_names F1 H).
    + rewrite (unrecognized_language f R). cbn [negb length].
      eapply returns_bind; [apply returns_print|].
      intros w1 F1. rewrite <- F1.
      replace (n + Z.of_nat (S (length (filter (fun f0 => negb (recognized f0))
                                          file_names))))%Z
        with (n + 1 + Z.of_nat (length (filter (fun f0 => negb (recognized f0))
                                          file_names)))%Z by lia.
      apply IH. apply (inputs_readable_tail w w1 f file_names F1 H).
Qed.

(** The loop of [convert] up to a recognized input that cannot be read. *)
Lemma convert_for_raises pre f post format verbosity :
  forall replacements warnings w,
    inputs_readable w pre ->
    recognized f = true ->
    fs w f = None ->
    raises_printing
      (convert_for (pre ++ f :: post) format verbosity replacements warnings) w
      (OSError f) (convert_output verbosity pre).
Proof.
  induction pre as [|g pre IH]; intros d n w H R Hf.
  - cbn [app convert_for convert_output flat_map].
    change (last_item (split "/" f)) with (fname_of f).
    change ("." ++ last_item (split "." (fname_of f)))
      with (ftype_of (fname_of f)).
    rewrite (recognized_language f R).
    apply raises_bind. unfold convert_file. apply raises_bind.
    now apply raises_read_file.
  - cbn [app convert_for convert_output flat_map].
    change (last_item (split "/" g)) with (fname_of g).
    change ("." ++ last_item (split "." (fname_of g)))
      with (ftype_of (fname_of g)).
    unfold file_output at 1.
    destruct (recognized g) eqn:Rg.
    + rewrite (recognized_language g Rg).
      destruct (fs w g) as [file|] eqn:Eg.
      2:{ exfalso. apply (H g); [now left | exact Rg | exact Eg]. }
      eapply raises_after; [apply (convert_file_returns _ _ _ _ file Eg)|].
      intros w1 F1. apply IH; [|exact R | now rewrite F1].
      apply (inputs_readable_tail w w1 g pre F1 H).
    + rewrite (unrecognized_language g Rg).
      eapply raises_after; [apply returns_print|].
      intros w1 F1. apply IH; [|exact R | now rewrite F1].
      apply (inputs_readable_tail w w1 g pre F1 H).
Qed.

End ConvertMore.

Section ConvertRuns.

Context {libraries : Libraries}.

Lemma returns_footer verbosity warnings w :
  returns_printing
    (if (verbosity >=? 1)%Z && (warnings =? 0)%Z then
       print (colored "Conversion completed" "green") ;; print ""
     else if (verbosity >=? 1)%Z && (warnings >? 0)%Z then
       print (colored "Conversion completed with warnings" "yellow") ;; print ""
     else if (warnings >? 0)%Z then print ""
     else ret tt)
    w tt
    (if (verbosity >=? 1)%Z && (warnings =? 0)%Z
     then [colored "Conversion completed" "green"; ""]
     else if (verbosity >=? 1)%Z && (warnings >? 0)%Z
     then [colored "Conversion completed with warnings" "yellow"; ""]
     else if (warnings >? 0)%Z then [""] else []).
Proof.
  destruct ((verbosity >=? 1)%Z && (warnings =? 0)%Z).
  { apply (returns_bind _ _ w tt tt [_] [_] (returns_print _ _)).
    intros w1 _. apply returns_print. }
  destruct ((verbosity >=? 1)%Z && (warnings >? 0)%Z).
  { apply (returns_bind _ _ w tt tt [_] [_] (returns_print _ _)).
    intros w1 _. apply returns_print. }
  destruct (warnings >? 0)%Z; [apply returns_print | apply returns_ret].
Qed.

(** [convert] where every recognized input is readable: the mapping it
    returns and the lines it prints. *)
Lemma convert_returns file_names format verbosity w :
  inputs_readable w file_names ->
  let warnings :=
    Z.of_nat (length (filter (fun f => negb (recognized f)) file_names)) in
  returns_printing (convert file_names format verbosity) w
    (fold_left (insert_link (link_of (fs w) format)) file_names [])
    ((if (verbosity >=? 1)%Z
      then [colored "Calculating conversions" "blue"] else [])
     ++ convert_output verbosity file_names
     ++ (if (verbosity >=? 1)%Z && (warnings =? 0)%Z
         then [colored "Conversion completed" "green"; ""]
         else if (verbosity >=? 1)%Z && (warnings >? 0)%Z
         then [colored "Conversion completed with warnings" "yellow"; ""]
         else if (warnings >? 0)%Z then [""] else []))%list.
Proof.
  intros H warnings. unfold convert.
  eapply returns_bind; [apply returns_when, returns_print | intros w1 F1].
  eapply returns_bind.
  { apply (convert_for_returns file_names format verbosity [] 0%Z w1).
    intros f Hf R. rewrite F1. now apply H. }
  intros w2 F2. rewrite F1. rewrite Z.add_0_l. fold warnings.
  cbn iota beta.
  eapply returns_output;
    [|eapply returns_bind; [apply returns_footer | intros w3 F3; apply returns_ret]].
  apply app_nil_r.
Qed.

Lemma convert_raises pre f post format verbosity w :
  inputs_readable w pre ->
  recognized f = true ->
  fs w f = None ->
  raises_printing (convert (pre ++ f :: post) format verbosity) w (OSError f)
    ((if (verbosity >=? 1)%Z
      then [colored "Calculating conversions" "blue"] else [])
     ++ convert_output verbosity pre)%list.
Proof.
  intros H R Hf. unfold convert.
  eapply raises_after; [apply returns_when, returns_print | intros w1 F1].
  apply raises_bind. apply convert_for_raises; [|exact R | now rewrite F1].
  intros g Hg Rg. rewrite F1. now apply H.
Qed.

Lemma convert_output_quiet verbosity file_names :
  (verbosity < 2)%Z ->
  convert_output verbosity file_names
  = map (skip_message verbosity)
      (filter (fun f => negb (recognized f)) file_names).
Proof.
  intros Hv. unfold convert_output.
  induction file_names as [|f file_names IH]; [reflexivity|].
  cbn [flat_map filter]. unfold file_output at 1.
  destruct (recognized f); cbn [negb].
  - replace (verbosity >=? 2)%Z with false by (symmetry; lia). exact IH.
  - cbn [map app]. now rewrite IH.
Qed.

End ConvertRuns.

(** X2: every key of the mapping that [convert] returns is a base name:
    it holds no [/], and it is [mmd] or ends in [.mmd].  A placeholder
    that names a diagram by its path is therefore never matched. *)
Theorem convert_keys_are_base_names {libraries : Libraries}
    (file_names : list string) (format : string) (verbosity : Z) (w : world) :
  inputs_readable w file_names ->
  exists replacements,
    value_of (convert file_names format verbosity) w = Ok replacements
    /\ forall key,
         In key (dict_keys replacements) ->
         has_char "/" key = false
         /\ (key = "mmd" \/ exists stem, key = stem ++ ".mmd").
Proof.
  intros H. destruct (convert_run file_names format verbosity w H) as [w1 [E _]].
  eexists. unfold value_of. rewrite E. split; [reflexivity|].
  intros key Hkey. rewrite convert_keys in Hkey.
  apply DictFacts.first_occurrences_In, in_map_iff in Hkey as [f [<- Hf]].
  apply filter_In in Hf as [_ R]. split.
  - apply last_split_no_sep.
  - now apply recognized_cases.
Qed.

Lemma convert_keys_are_base_names_witness :
  inputs_readable example_world ["one/a.mmd"; "mmd"; "x.txt"]
  /\ exists replacements,
       value_of
         (convert (libraries := example_libraries)
            ["one/a.mmd"; "mmd"; "x.txt"] "svg" 1) example_world
       = Ok replacements
       /\ dict_keys replacements = ["a.mmd"; "mmd"].
Proof.
  assert (H : inputs_readable example_world ["one/a.mmd"; "mmd"; "x.txt"]).
  { intros f [<-|[<-|[<-|[]]]] R; discriminate. }
  split; [exact H|].
  destruct (convert_keys_are_base_names (libraries := example_libraries)
              ["one/a.mmd"; "mmd"; "x.txt"] "svg" 1 example_world H)
    as [replacements [E _]].
  exists replacements. split; [exact E|].
  vm_compute in E. inversion E. reflexivity.
Defined.

(** X3: [convert] stops at the first recognized input that cannot be
    read.  It raises the error of [open] for that file, so no mapping is
    returned; the inputs before it have been processed and reported, the
    ones after it are not looked at, and no file is changed. *)
Theorem convert_unreadable_input_raises {libraries : Libraries}
    (pre post : list string) (f format : string) (verbosity : Z) (w : world) :
  inputs_readable w pre ->
  recognized f = true ->
  fs w f = None ->
  value_of (convert (pre ++ f :: post)%list format verbosity) w
  = Raise (OSError f)
  /\ fs (world_after (convert (pre ++ f :: post)%list format verbosity) w)
     = fs w
  /\ stdout (world_after (convert (pre ++ f :: post)%list format verbosity) w)
     = (stdout w
        ++ (if (verbosity >=? 1)%Z
            then [colored "Calculating conversions" "blue"] else [])
        ++ convert_output verbosity pre)%list.
Proof.
  intros H R Hf. apply raises_elim. now apply convert_raises.
Qed.

Lemma convert_unreadable_input_raises_witness :
  inputs_readable example_world ["b.mmd"; "x.txt"]
  /\ recognized "gone.mmd" = true
  /\ fs example_world "gone.mmd" = None
  /\ value_of
       (convert (libraries := example_libraries)
          (["b.mmd"; "x.txt"] ++ "gone.mmd" :: ["one/a.mmd"]) "svg" 2)
       example_world
     = Raise (OSError "gone.mmd").
Proof.
  assert (H : inputs_readable example_world ["b.mmd"; "x.txt"]).
  { intros f [<-|[<-|[]]] R; discriminate. }
  split; [exact H | split; [reflexivity | split; [reflexivity|]]].
  exact (proj1 (convert_unreadable_input_raises
                  (libraries := example_libraries) ["b.mmd"; "x.txt"]
                  ["one/a.mmd"] "gone.mmd" "svg" 2 example_world
                  H eq_refl eq_refl)).
Defined.

(** X4: [convert] only reads: whatever the inputs, the format and the
    verbosity, and whether it returns or raises, every file is afterwards
    as it was before. *)
Theorem convert_keeps_files {libraries : Libraries}
    (file_names : list string) (format : string) (verbosity : Z) (w : world) :
  fs (world_after (convert file_names format verbosity) w) = fs w.
Proof. apply keeps_convert. Qed.

(** X5: below verbosity 1, which is what the flag [--silent] gives,
    [convert] still prints: one line [Skipping <path> as it is not a
    supported diagram file] for each input that is not recognized, in the
    order of the inputs, and an empty line after them if there is any. *)
Theorem convert_silent_output {libraries : Libraries}
    (file_names : list string) (format : string) (verbosity : Z) (w : world) :
  (verbosity < 1)%Z ->
  inputs_readable w file_names ->
  let skipped := filter (fun f => negb (recognized f)) file_names in
  stdout (world_after (convert file_names format verbosity) w)
  = (stdout w
     ++ map (fun f =>
               colored ("Skipping " ++ f
                          ++ " as it is not a supported diagram file") "yellow")
          skipped
     ++ match skipped with [] => [] | _ :: _ => [""] end)%list.
Proof.
  intros Hv H skipped.
  destruct (returns_elim _ _ _ _ (convert_returns file_names format verbosity w H))
    as [_ [_ S]].
  rewrite S. f_equal.
  replace (verbosity >=? 1)%Z with false by (symmetry; lia).
  cbn [andb app]. rewrite convert_output_quiet by lia. fold skipped.
  f_equal.
  - apply map_ext. intros f. unfold skip_message.
    now replace (verbosity >=? 1)%Z with false by (symmetry; lia).
  - destruct skipped; reflexivity.
Qed.

Lemma convert_silent_output_witness :
  (-1 < 1)%Z
  /\ inputs_readable example_world ["x.txt"; "b.mmd"; "notes"]
  /\ stdout (world_after
               (convert (libraries := example_libraries)
                  ["x.txt"; "b.mmd"; "notes"] "svg" (-1)) example_world)
     = ["Skipping x.txt as it is not a supported diagram file";
        "Skipping notes as it is not a supported diagram file"; ""].
Proof.
  assert (H : inputs_readable example_world ["x.txt"; "b.mmd"; "notes"]).
  { intros f [<-|[<-|[<-|[]]]] R; discriminate. }
  split; [lia | split; [exact H|]].
  exact (convert_silent_output (libraries := example_libraries)
           ["x.txt"; "b.mmd"; "notes"] "svg" (-1) example_world
           ltac:(lia) H).
Defined.

(* ----------------------------------------------------------------- *)
(** ** What the substitutor returns and prints *)

Section SubstitutorRuns.

Context {libraries : Libraries}.

Lemma check_line_for_returns items line index verbosity req w :
  returns_printing (check_line_for items line index verbosity req) w
    match find (matches line) items with
    | Some (name, link) => Some (replacement_line name link)
    | None => match items with [] => req | _ :: _ => Some line end
    end
    match find (matches line) items with
    | Some (name, link) =>
        match_diagnostics line index verbosity (replacement_line name link)
    | None => []
    end.
Proof.
  revert req w. induction items as [|[key value] items IH]; intros req w.
  - apply returns_ret.
  - cbn [check_line_for find].
    change (matches line (key, value))
      with (contains ("![" ++ key ++ "]") line).
    destruct (contains ("![" ++ key ++ "]") line).
    + unfold str_format. rewrite markdown_format_eval.
      eapply returns_output;
        [|eapply returns_bind; [apply returns_lift | intros w1 _];
          eapply returns_bind; [apply returns_when, returns_print | intros w2 _];
          eapply returns_bind;
            [apply returns_when;
             eapply returns_bind;
               [apply returns_print | intros w3 _; apply returns_print]
            | intros w3 _; apply returns_ret]].
      unfold match_diagnostics. cbn [app].
      destruct (verbosity >=? 2)%Z, (verbosity >=? 3)%Z; reflexivity.
    + specialize (IH (Some line) w). destruct items; exact IH.
Qed.

Lemma check_line_returns line index replacements verbosity w :
  replacements <> [] ->
  returns_printing (check_line line index replacements verbosity) w
    (rewritten_line replacements line)
    (line_diagnostics replacements line index verbosity).
Proof.
  intros Hd. unfold check_line, rewritten_line, line_diagnostics, dict_items.
  eapply returns_output;
    [|eapply returns_bind; [apply check_line_for_returns | intros w1 _]].
  { apply app_nil_r. }
  destruct replacements as [|item d]; [congruence|].
  destruct (find (matches line) (item :: d)) as [[name link]|];
    apply returns_ret.
Qed.

Lemma update_for_returns data replacements verbosity :
  replacements <> [] ->
  forall index final w,
    returns_printing (update_for data index replacements verbosity final) w
      (final ++ map (rewritten_line replacements) data)%list
      (pass_output replacements verbosity index data).
Proof.
  intros Hd. induction data as [|line data IH]; intros index final w.
  - cbn. rewrite app_nil_r. apply returns_ret.
  - cbn [update_for map pass_output].
    eapply returns_bind; [now apply check_line_returns | intros w1 _].
    apply (returns_bind _ _ w1 tt _ [_] _ (returns_print _ _)).
    intros w2 _.
    replace (final ++ rewritten_line replacements line
               :: map (rewritten_line replacements) data)%list
      with ((final ++ [rewritten_line replacements line])
              ++ map (rewritten_line replacements) data)%list
      by (rewrite <- app_assoc; reflexivity).
    apply IH.
Qed.

Lemma pass_output_quiet replacements verbosity index data :
  (verbosity < 2)%Z ->
  pass_output replacements verbosity index data
  = map (rewritten_line replacements) data.
Proof.
  intros Hv. revert index. induction data as [|line data IH]; intros index;
    [reflexivity|].
  cbn [pass_output map]. rewrite IH.
  unfold line_diagnostics, match_diagnostics.
  replace (verbosity >=? 2)%Z with false by (symmetry; lia).
  replace (verbosity >=? 3)%Z with false by (symmetry; lia).
  now destruct (find _ _) as [[name link]|].
Qed.

(** A dry run on a readable document under a mapping that is not empty. *)
Lemma update_markdown_file_dry_run_returns file_name replacements verbosity
    w f :
  replacements <> [] ->
  fs w file_name = Some f ->
  returns_printing (update_markdown_file file_name replacements true verbosity)
    w tt
    ((if (verbosity >=? 1)%Z
      then [colored ("Finding Update Points in " ++ file_name ++ ":") "blue"]
      else [])
     ++ pass_output replacements verbosity 0 (readlines (f_text f))
     ++ (if (verbosity >=? 1)%Z
         then [colored ("Found " ++ str (Z.of_nat (length replacements))
                          ++ " Update Points") "blue"; ""]
         else [])
     ++ [dry_run_notice; ""])%list.
Proof.
  intros Hd Hf. unfold update_markdown_file. cbn [negb].
  eapply returns_bind; [apply returns_when, returns_print | intros w1 F1].
  eapply returns_output;
    [|eapply returns_bind;
       [apply (returns_read_file _ _ f); now rewrite F1 | intros w2 F2]].
  { reflexivity. }
  eapply returns_bind; [now apply update_for_returns | intros w3 F3].
  eapply returns_bind.
  { apply returns_when.
    apply (returns_bind _ _ w3 tt tt [_] [_] (returns_print _ _)).
    intros w4 _. apply returns_print. }
  intros w4 F4.
  apply (returns_bind _ _ w4 tt tt [_] [_] (returns_print _ _)).
  intros w5 _. apply returns_print.
Qed.

(** The document cannot be read. *)
Lemma update_markdown_file_unreadable file_name replacements dry_run verbosity
    w :
  fs w file_name = None ->
  raises_printing
    (update_markdown_file file_name replacements dry_run verbosity) w
    (OSError file_name)
    (if (verbosity >=? 1)%Z
     then [colored ("Finding Update Points in " ++ file_name ++ ":") "blue"]
     else []).
Proof.
  intros Hf. unfold update_markdown_file.
  eapply raises_output;
    [|eapply raises_after; [apply returns_when, returns_print | intros w1 F1];
      apply raises_bind, raises_read_file; now rewrite F1].
  apply app_nil_r.
Qed.

End SubstitutorRuns.

Lemma rewritten_line_first_match (pre post : dict) (name link line : string) :
  (forall name' link', In (name', link') pre ->
     ~ occurs_in (placeholder name') line) ->
  occurs_in (placeholder name) line ->
  rewritten_line (pre ++ (name, link) :: post)%list line
  = replacement_line name link.
Proof.
  intros Hpre Hname. unfold rewritten_line, dict_items.
  rewrite (find_first (matches line) pre post (name, link)); [reflexivity| |].
  - intros [name' link'] Hin. apply contains_false. eauto.
  - now apply contains_spec.
Qed.

Lemma placeholder_in_replacement (name link : string) :
  occurs_in (placeholder name) (replacement_line name link).
Proof.
  exists "", ("(" ++ link ++ ")" ++ nl).
  unfold placeholder, replacement_line. cbn [append].
  now rewrite append_assoc.
Qed.

(** X6: what [check_line] prints.  On the first entry that matches it
    prints, from verbosity 2 on, [@Line n:] where [n] counts the lines of
    the document from 1, and from verbosity 3 on also the line as it was
    and the line that replaces it; below verbosity 2 it prints nothing. *)
Theorem check_line_diagnostics {libraries : Libraries}
    (line : string) (index verbosity : Z) (w : world)
    (pre post : dict) (name link : string) :
  (forall name' link', In (name', link') pre ->
     ~ occurs_in (placeholder name') line) ->
  occurs_in (placeholder name) line ->
  stdout (world_after
            (check_line line index (pre ++ (name, link) :: post)%list verbosity)
            w)
  = (stdout w
     ++ (if (verbosity >=? 2)%Z
         then [colored ("@Line " ++ str (index + 1) ++ ":") "blue"] else [])
     ++ (if (verbosity >=? 3)%Z
         then [colored ("-- " ++ line) "red";
               colored ("++ " ++ "![" ++ name ++ "](" ++ link ++ ")" ++ nl)
                 "green"]
         else []))%list.
Proof.
  intros Hpre Hname.
  destruct (returns_elim _ _ _ _
              (check_line_returns line index (pre ++ (name, link) :: post)%list
                 verbosity w ltac:(destruct pre; discriminate)))
    as [_ [_ S]].
  rewrite S. unfold line_diagnostics, dict_items.
  rewrite (find_first (matches line) pre post (name, link)); [reflexivity| |].
  - intros [name' link'] Hin. apply contains_false. eauto.
  - now apply contains_spec.
Qed.

Lemma check_line_diagnostics_witness :
  (forall name' link', In (name', link') [("c.mmd", "L0")] ->
     ~ occurs_in (placeholder name') "see ![a.mmd]")
  /\ occurs_in (placeholder "a.mmd") "see ![a.mmd]"
  /\ stdout (world_after
               (check_line (libraries := example_libraries) "see ![a.mmd]" 4
                  [("c.mmd", "L0"); ("a.mmd", "L1")] 3) example_world)
     = ["@Line 5:"; "-- see ![a.mmd]"; "++ ![a.mmd](L1)" ++ nl].
Proof.
  assert (H1 : forall name' link', In (name', link') [("c.mmd", "L0")] ->
                 ~ occurs_in (placeholder name') "see ![a.mmd]").
  { intros name' link' [H|[]]. inversion H; subst.
    apply contains_false. reflexivity. }
  assert (H2 : occurs_in (placeholder "a.mmd") "see ![a.mmd]").
  { apply contains_spec. reflexivity. }
  split; [exact H1 | split; [exact H2|]].
  exact (check_line_diagnostics (libraries := example_libraries)
           "see ![a.mmd]" 4 3 example_world [("c.mmd", "L0")] [] "a.mmd" "L1"
           H1 H2).
Defined.

(** X7: under a mapping that is not empty the loop of
    [update_markdown_file] returns one line for each line of the document,
    in order: the line itself where no placeholder of the mapping occurs
    in it, and otherwise [![name](link)] with a line break for the first
    entry of the mapping whose placeholder occurs in it. *)
Theorem substitution_pass_lines {libraries : Libraries}
    (data : list string) (replacements : dict) (verbosity : Z) (w : world) :
  replacements <> [] ->
  exists final,
    value_of (update_for data 0 replacements verbosity []) w = Ok final
    /\ length final = length data
    /\ forall i line,
         nth_error data i = Some line ->
         ((forall name link, In (name, link) replacements ->
             ~ occurs_in (placeholder name) line) ->
          nth_error final i = Some line)
         /\ (forall pre post name link,
               replacements = (pre ++ (name, link) :: post)%list ->
               (forall name' link', In (name', link') pre ->
                  ~ occurs_in (placeholder name') line) ->
               occurs_in (placeholder name) line ->
               nth_error final i
               = Some ("![" ++ name ++ "](" ++ link ++ ")" ++ nl)).
Proof.
  intros Hd. eexists.
  split; [now apply update_for_value|]. cbn [app].
  split; [apply length_map|].
  intros i line Hi. rewrite nth_error_map, Hi. cbn [option_map]. split.
  - intros Hno. now rewrite rewritten_line_no_match.
  - intros pre post name link -> Hpre Hname.
    now rewrite rewritten_line_first_match.
Qed.

Lemma substitution_pass_lines_witness :
  [("a.mmd", "L")] <> []
  /\ value_of (update_for (libraries := example_libraries)
                 ["# Title" ++ nl; "see ![a.mmd] here" ++ nl] 0
                 [("a.mmd", "L")] 1 []) example_world
     = Ok ["# Title" ++ nl; "![a.mmd](L)" ++ nl].
Proof.
  split; [discriminate|].
  destruct (substitution_pass_lines (libraries := example_libraries)
              ["# Title" ++ nl; "see ![a.mmd] here" ++ nl] [("a.mmd", "L")] 1
              example_world ltac:(discriminate)) as [final [E _]].
  rewrite E. vm_compute in E. inversion E. reflexivity.
Defined.

(** X8: a line that [check_line] has produced is kept by [check_line]:
    the replacement for an entry holds the placeholder of that entry, so
    where no earlier entry of the mapping has its placeholder in it, a
    second run of the tool over the rewritten document leaves it as it
    is.  For the first entry of the mapping this holds always. *)
Theorem check_line_keeps_replacement {libraries : Libraries}
    (index verbosity : Z) (w : world) (pre post : dict) (name link : string) :
  (forall name' link', In (name', link') pre ->
     ~ occurs_in (placeholder name') ("![" ++ name ++ "](" ++ link ++ ")" ++ nl)) ->
  value_of
    (check_line ("![" ++ name ++ "](" ++ link ++ ")" ++ nl) index
       (pre ++ (name, link) :: post)%list verbosity) w
  = Ok ("![" ++ name ++ "](" ++ link ++ ")" ++ nl).
Proof.
  intros Hpre.
  apply (check_line_first_match (replacement_line name link));
    [exact Hpre | apply placeholder_in_replacement].
Qed.

Lemma check_line_keeps_replacement_witness :
  (forall name' link', In (name', link') [("b.mmd", "L2")] ->
     ~ occurs_in (placeholder name') ("![a.mmd](L1)" ++ nl))
  /\ value_of
       (check_line (libraries := example_libraries) ("![a.mmd](L1)" ++ nl) 0
          [("b.mmd", "L2"); ("a.mmd", "L1")] 1) example_world
     = Ok ("![a.mmd](L1)" ++ nl).
Proof.
  assert (H : forall name' link', In (name', link') [("b.mmd", "L2")] ->
                ~ occurs_in (placeholder name') ("![a.mmd](L1)" ++ nl)).
  { intros name' link' [H|[]]. inversion H; subst.
    apply contains_false. reflexivity. }
  split; [exact H|].
  exact (check_line_keeps_replacement (libraries := example_libraries) 0 1
           example_world [("b.mmd", "L2")] [] "a.mmd" "L1" H).
Defined.

(* ----------------------------------------------------------------- *)
(** ** [update_markdown_file]: files and console *)

Section UpdateRuns.

Context {libraries : Libraries}.

Lemma raises_write_file path lines w f :
  fs w path = Some f -> f_writable f = false ->
  raises_printing (write_file path lines) w (OSError path) [].
Proof.
  intros Hf Hw. exists w. unfold write_file. rewrite Hf.
  destruct f as [text writable]. cbn in Hw. subst.
  now rewrite app_nil_r.
Qed.

(** The document may be read and not written. *)
Lemma update_markdown_file_locked file_name replacements verbosity w f :
  replacements <> [] ->
  fs w file_name = Some f ->
  f_writable f = false ->
  raises_printing (update_markdown_file file_name replacements false verbosity)
    w (OSError file_name)
    ((if (verbosity >=? 1)%Z
      then [colored ("Finding Update Points in " ++ file_name ++ ":") "blue"]
      else [])
     ++ pass_output replacements verbosity 0 (readlines (f_text f))
     ++ (if (verbosity >=? 1)%Z
         then [colored ("Found " ++ str (Z.of_nat (length replacements))
                          ++ " Update Points") "blue"; ""]
         else [])
     ++ (if (verbosity >=? 1)%Z
         then [colored ("Updating " ++ file_name) "blue"] else []))%list.
Proof.
  intros Hd Hf Hw. unfold update_markdown_file. cbn [negb].
  eapply raises_after; [apply returns_when, returns_print | intros w1 F1].
  eapply raises_output;
    [|eapply raises_after;
       [apply (returns_read_file _ _ f); now rewrite F1 | intros w2 F2]].
  { reflexivity. }
  eapply raises_after; [now apply update_for_returns | intros w3 F3].
  eapply raises_after.
  { apply returns_when.
    apply (returns_bind _ _ w3 tt tt [_] [_] (returns_print _ _)).
    intros w4 _. apply returns_print. }
  intros w4 F4.
  eapply raises_output;
    [|eapply raises_after; [apply returns_when, returns_print | intros w5 F5];
      apply raises_bind, (raises_write_file _ _ _ f); [|exact Hw];
      now rewrite F5, F4, F3, F2, F1].
  apply app_nil_r.
Qed.

Lemma touches_only_update_markdown_file file_name replacements dry_run
    verbosity :
  touches_only file_name
    (update_markdown_file file_name replacements dry_run verbosity).
Proof.
  destruct dry_run.
  - apply touches_only_keeps, keeps_update_markdown_file_dry_run.
  - unfold update_markdown_file. cbn [negb].
    apply touches_only_bind;
      [apply touches_only_keeps; auto with keeps_db | intros _].
    apply touches_only_bind;
      [apply touches_only_keeps, keeps_read_file | intros text].
    apply touches_only_bind;
      [apply touches_only_keeps, keeps_update_for | intros final].
    apply touches_only_bind;
      [apply touches_only_keeps; auto with keeps_db | intros _].
    apply touches_only_bind;
      [apply touches_only_keeps; auto with keeps_db | intros _].
    apply touches_only_bind; [apply touches_only_write_file | intros _].
    apply touches_only_keeps. auto with keeps_db.
Qed.

End UpdateRuns.

(** X9: a dry run changes no file: with the flag set,
    [update_markdown_file] leaves the whole file system as it was, for
    every document, mapping and verbosity, whether it returns or raises. *)
Theorem update_markdown_file_dry_run_keeps_files {libraries : Libraries}
    (file_name : string) (replacements : dict) (verbosity : Z) (w : world) :
  fs (world_after
        (update_markdown_file file_name replacements true verbosity) w)
  = fs w.
Proof. apply keeps_update_markdown_file_dry_run. Qed.

(** X10: without the dry-run flag and under a mapping that is not empty,
    [update_markdown_file] on a document that can be read and written
    returns, and the file system differs from the one before in the
    document alone, which holds the lines that the loop produced, one
    after the other. *)
Theorem update_markdown_file_writes_back {libraries : Libraries}
    (file_name : string) (replacements : dict) (verbosity : Z) (w : world)
    (f : file) :
  replacements <> [] ->
  fs w file_name = Some f ->
  f_writable f = true ->
  exists final,
    value_of (update_for (readlines (f_text f)) 0 replacements verbosity []) w
    = Ok final
    /\ value_of (update_markdown_file file_name replacements false verbosity) w
       = Ok tt
    /\ fs (world_after
             (update_markdown_file file_name replacements false verbosity) w)
       = fs_update file_name
           {| f_text := writelines final; f_writable := true |} (fs w).
Proof.
  intros Hd Hf Hw.
  pose proof (update_for_value (readlines (f_text f)) 0 replacements verbosity
                [] Hd w) as E.
  eexists. split; [exact E|].
  exact (proj2 (update_markdown_file_persistence file_name replacements
                  verbosity w) f _ Hf Hw E).
Qed.

Lemma update_markdown_file_writes_back_witness :
  [("a.mmd", "L1"); ("b.mmd", "L2")] <> []
  /\ fs example_world "README.md"
     = example_file ("# Title" ++ nl ++ "![b.mmd] and ![a.mmd]" ++ nl
                       ++ "last line")
  /\ fs (world_after
           (update_markdown_file (libraries := example_libraries) "README.md"
              [("a.mmd", "L1"); ("b.mmd", "L2")] false 1) example_world)
        "README.md"
     = example_file ("# Title" ++ nl ++ "![a.mmd](L1)" ++ nl ++ "last line").
Proof.
  split; [discriminate | split; [reflexivity|]].
  destruct (update_markdown_file_writes_back (libraries := example_libraries)
              "README.md" [("a.mmd", "L1"); ("b.mmd", "L2")] 1 example_world
              {| f_text := "# Title" ++ nl ++ "![b.mmd] and ![a.mmd]" ++ nl
                             ++ "last line";
                 f_writable := true |}
              ltac:(discriminate) eq_refl eq_refl) as [final [E [_ F]]].
  rewrite F. vm_compute in E. inversion E. reflexivity.
Defined.

(** X11: where no placeholder of a mapping that is not empty occurs in the
    text of the document, a run without the dry-run flag writes the
    document back with the text it had: reading the lines and writing
    them is the identity on the text. *)
Theorem update_markdown_file_no_match_keeps_text {libraries : Libraries}
    (file_name : string) (replacements : dict) (verbosity : Z) (w : world)
    (f : file) :
  replacements <> [] ->
  fs w file_name = Some f ->
  f_writable f = true ->
  (forall name link, In (name, link) replacements ->
     ~ occurs_in (placeholder name) (f_text f)) ->
  value_of (update_markdown_file file_name replacements false verbosity) w
  = Ok tt
  /\ fs (world_after
           (update_markdown_file file_name replacements false verbosity) w)
     = fs_update file_name
         {| f_text := f_text f; f_writable := true |} (fs w).
Proof.
  intros Hd Hf Hw Hno.
  assert (E : value_of (update_for (readlines (f_text f)) 0 replacements
                          verbosity []) w
              = Ok (readlines (f_text f))).
  { apply update_for_no_match; [exact Hd|].
    intros line name link Hline Hin Hocc. apply (Hno name link Hin).
    eapply occurs_in_trans; [exact Hocc | now apply readlines_occurs]. }
  destruct (proj2 (update_markdown_file_persistence file_name replacements
                     verbosity w) f _ Hf Hw E) as [V F].
  split; [exact V|]. rewrite F. now rewrite writelines_readlines.
Qed.

Lemma update_markdown_file_no_match_keeps_text_witness :
  [("c.mmd", "L")] <> []
  /\ (forall name link, In (name, link) [("c.mmd", "L")] ->
        ~ occurs_in (placeholder name)
            ("# Title" ++ nl ++ "![b.mmd] and ![a.mmd]" ++ nl ++ "last line"))
  /\ fs (world_after
           (update_markdown_file (libraries := example_libraries) "README.md"
              [("c.mmd", "L")] false 1) example_world) "README.md"
     = fs example_world "README.md".
Proof.
  assert (H : forall name link, In (name, link) [("c.mmd", "L")] ->
                ~ occurs_in (placeholder name)
                    ("# Title" ++ nl ++ "![b.mmd] and ![a.mmd]" ++ nl
                       ++ "last line")).
  { intros name link [H|[]]. inversion H; subst.
    apply contains_false. reflexivity. }
  split; [discriminate | split; [exact H|]].
  destruct (update_markdown_file_no_match_keeps_text
              (libraries := example_libraries) "README.md" [("c.mmd", "L")] 1
              example_world
              {| f_text := "# Title" ++ nl ++ "![b.mmd] and ![a.mmd]" ++ nl
                             ++ "last line";
                 f_writable := true |}
              ltac:(discriminate) eq_refl eq_refl H) as [_ F].
  rewrite F. reflexivity.
Defined.

(** X12: where the document cannot be opened for reading,
    [update_markdown_file] raises the error of [open], with or without
    the dry-run flag; no file is changed, and nothing but the heading
    [Finding Update Points in ...], from verbosity 1 on, has been
    printed. *)
Theorem update_markdown_file_missing_document {libraries : Libraries}
    (file_name : string) (replacements : dict) (dry_run : bool)
    (verbosity : Z) (w : world) :
  fs w file_name = None ->
  value_of (update_markdown_file file_name replacements dry_run verbosity) w
  = Raise (OSError file_name)
  /\ fs (world_after
           (update_markdown_file file_name replacements dry_run verbosity) w)
     = fs w
  /\ stdout (world_after
               (update_markdown_file file_name replacements dry_run verbosity)
               w)
     = (stdout w
        ++ (if (verbosity >=? 1)%Z
            then [colored ("Finding Update Points in " ++ file_name ++ ":")
                    "blue"]
            else []))%list.
Proof.
  intros Hf. apply raises_elim. now apply update_markdown_file_unreadable.
Qed.

Lemma update_markdown_file_missing_document_witness :
  fs example_world "nowhere.md" = None
  /\ value_of
       (update_markdown_file (libraries := example_libraries) "nowhere.md"
          [("a.mmd", "L")] false 1) example_world
     = Raise (OSError "nowhere.md").
Proof.
  split; [reflexivity|].
  exact (proj1 (update_markdown_file_missing_document
                  (libraries := example_libraries) "nowhere.md"
                  [("a.mmd", "L")] false 1 example_world eq_refl)).
Defined.

(** X13: where the document can be read and cannot be opened for
    writing, a run without the dry-run flag under a mapping that is not
    empty goes through all the lines and then raises the error of [open];
    the document and every other file are as they were.  The loop has
    returned one line for each line of the document, and the console
    holds, after what it held, the heading, what the loop prints for the
    lines, [Found n Update Points] with an empty line and
    [Updating ...], the three of them from verbosity 1 on, and nothing
    after that; below verbosity 2 the loop prints the lines it returns
    and nothing else. *)
Theorem update_markdown_file_read_only {libraries : Libraries}
    (file_name : string) (replacements : dict) (verbosity : Z) (w : world)
    (f : file) :
  replacements <> [] ->
  fs w file_name = Some f ->
  f_writable f = false ->
  exists final,
    value_of (update_for (readlines (f_text f)) 0 replacements verbosity []) w
    = Ok final
    /\ length final = length (readlines (f_text f))
    /\ value_of (update_markdown_file file_name replacements false verbosity) w
       = Raise (OSError file_name)
    /\ fs (world_after
             (update_markdown_file file_name replacements false verbosity) w)
       = fs w
    /\ stdout (world_after
                 (update_markdown_file file_name replacements false verbosity)
                 w)
       = (stdout w
          ++ (if (verbosity >=? 1)%Z
              then [colored ("Finding Update Points in " ++ file_name ++ ":")
                      "blue"]
              else [])
          ++ pass_output replacements verbosity 0 (readlines (f_text f))
          ++ (if (verbosity >=? 1)%Z
              then [colored ("Found " ++ str (Z.of_nat (length replacements))
                               ++ " Update Points") "blue"; ""]
              else [])
          ++ (if (verbosity >=? 1)%Z
              then [colored ("Updating " ++ file_name) "blue"] else []))%list
    /\ ((verbosity < 2)%Z ->
        pass_output replacements verbosity 0 (readlines (f_text f)) = final).
Proof.
  intros Hd Hf Hw.
  destruct (raises_elim _ _ _ _
              (update_markdown_file_locked file_name replacements verbosity w f
                 Hd Hf Hw)) as [V [F S]].
  exists (map (rewritten_line replacements) (readlines (f_text f))).
  split; [exact (update_for_value _ 0 replacements verbosity [] Hd w)|].
  split; [apply length_map|].
  split; [exact V | split; [exact F | split; [exact S|]]].
  intros Hv. now apply pass_output_quiet.
Qed.

Lemma update_markdown_file_read_only_witness :
  [("a.mmd", "L")] <> []
  /\ fs locked_world "locked.md"
     = Some {| f_text := "![a.mmd]" ++ nl; f_writable := false |}
  /\ value_of
       (update_markdown_file (libraries := example_libraries) "locked.md"
          [("a.mmd", "L")] false 1) locked_world
     = Raise (OSError "locked.md")
  /\ stdout (world_after
               (update_markdown_file (libraries := example_libraries)
                  "locked.md" [("a.mmd", "L")] false 1) locked_world)
     = ["Finding Update Points in locked.md:"; "![a.mmd](L)" ++ nl;
        "Found 1 Update Points"; ""; "Updating locked.md"].
Proof.
  split; [discriminate | split; [reflexivity|]].
  destruct (update_markdown_file_read_only
              (libraries := example_libraries) "locked.md"
              [("a.mmd", "L")] 1 locked_world
              {| f_text := "![a.mmd]" ++ nl; f_writable := false |}
              ltac:(discriminate) eq_refl eq_refl)
    as [final [E [_ [V [_ [S _]]]]]].
  split; [exact V|]. rewrite S. reflexivity.
Defined.

(** X14: below verbosity 1, which is what the flag [--silent] gives, a dry
    run of [update_markdown_file] under a mapping that is not empty still
    prints every line of the rewritten document, and after them the
    notice of the dry run and an empty line. *)
Theorem update_markdown_file_silent_output {libraries : Libraries}
    (file_name : string) (replacements : dict) (verbosity : Z) (w : world)
    (f : file) :
  (verbosity < 1)%Z ->
  replacements <> [] ->
  fs w file_name = Some f ->
  exists final,
    value_of (update_for (readlines (f_text f)) 0 replacements verbosity []) w
    = Ok final
    /\ stdout (world_after
                 (update_markdown_file file_name replacements true verbosity) w)
       = (stdout w ++ final
          ++ [colored ("This was a dry run." ++ nl ++ tab
                         ++ "Please run the same command without '-d' flag")
                "yellow"; ""])%list.
Proof.
  intros Hv Hd Hf. eexists.
  split; [now apply update_for_value|]. cbn [app].
  destruct (returns_elim _ _ _ _
              (update_markdown_file_dry_run_returns file_name replacements
                 verbosity w f Hd Hf)) as [_ [_ S]].
  rewrite S. replace (verbosity >=? 1)%Z with false by (symmetry; lia).
  cbn [app]. now rewrite pass_output_quiet by lia.
Qed.

Lemma update_markdown_file_silent_output_witness :
  (-1 < 1)%Z
  /\ [("a.mmd", "L1")] <> []
  /\ stdout (world_after
               (update_markdown_file (libraries := example_libraries)
                  "README.md" [("a.mmd", "L1")] true (-1)) example_world)
     = ["# Title" ++ nl; "![a.mmd](L1)" ++ nl; "last line";
        "This was a dry run." ++ nl ++ tab
          ++ "Please run the same command without '-d' flag"; ""].
Proof.
  split; [lia | split; [discriminate|]].
  destruct (update_markdown_file_silent_output (libraries := example_libraries)
              "README.md" [("a.mmd", "L1")] (-1) example_world
              {| f_text := "# Title" ++ nl ++ "![b.mmd] and ![a.mmd]" ++ nl
                             ++ "last line";
                 f_writable := true |}
              ltac:(lia) ltac:(discriminate) eq_refl) as [final [E S]].
  rewrite S. vm_compute in E. inversion E. reflexivity.
Defined.

(** X15: at verbosity 1, the default, a dry run prints the heading, the
    rewritten lines, and then [Found n Update Points] where [n] is the
    number of entries of the mapping, whatever the number of lines that
    were rewritten. *)
Theorem update_markdown_file_reports_mapping_size {libraries : Libraries}
    (file_name : string) (replacements : dict) (w : world) (f : file) :
  replacements <> [] ->
  fs w file_name = Some f ->
  exists final,
    value_of (update_for (readlines (f_text f)) 0 replacements 1 []) w
    = Ok final
    /\ stdout (world_after
                 (update_markdown_file file_name replacements true 1) w)
       = (stdout w
          ++ [colored ("Finding Update Points in " ++ file_name ++ ":") "blue"]
          ++ final
          ++ [colored ("Found " ++ str (Z.of_nat (length replacements))
                         ++ " Update Points") "blue";
              "";
              colored ("This was a dry run." ++ nl ++ tab
                         ++ "Please run the same command without '-d' flag")
                "yellow";
              ""])%list.
Proof.
  intros Hd Hf. eexists.
  split; [now apply update_for_value|]. cbn [app].
  destruct (returns_elim _ _ _ _
              (update_markdown_file_dry_run_returns file_name replacements
                 1 w f Hd Hf)) as [_ [_ S]].
  rewrite S. change (1 >=? 1)%Z with true.
  cbn [app]. now rewrite pass_output_quiet by lia.
Qed.

Lemma update_markdown_file_reports_mapping_size_witness :
  [("c.mmd", "L0"); ("d.mmd", "L1")] <> []
  /\ stdout (world_after
               (update_markdown_file (libraries := example_libraries)
                  "README.md" [("c.mmd", "L0"); ("d.mmd", "L1")] true 1)
               example_world)
     = ["Finding Update Points in README.md:";
        "# Title" ++ nl; "![b.mmd] and ![a.mmd]" ++ nl; "last line";
        "Found 2 Update Points"; "";
        "This was a dry run." ++ nl ++ tab
          ++ "Please run the same command without '-d' flag"; ""].
Proof.
  split; [discriminate|].
  destruct (update_markdown_file_reports_mapping_size
              (libraries := example_libraries) "README.md"
              [("c.mmd", "L0"); ("d.mmd", "L1")] example_world
              {| f_text := "# Title" ++ nl ++ "![b.mmd] and ![a.mmd]" ++ nl
                             ++ "last line";
                 f_writable := true |}
              ltac:(discriminate) eq_refl) as [final [E S]].
  rewrite S. vm_compute in E. inversion E. reflexivity.
Defined.

(* ----------------------------------------------------------------- *)
(** ** The whole program: [main] *)

Section MainRuns.

Context {libraries : Libraries}.

Lemma keeps_print_inputs input : forall index, keeps_files (print_inputs input index).
Proof.
  induction input as [|value input IH]; intros index; cbn [print_inputs];
    auto with keeps_db.
Qed.

Lemma pure_print_inputs input :
  forall index, pure_value (print_inputs input index) (Ok tt).
Proof.
  induction input as [|value input IH]; intros index; cbn [print_inputs].
  - apply pure_ret.
  - eapply pure_bind; [apply pure_print | apply IH].
Qed.

Lemma keeps_print_configuration dictargs :
  keeps_files (print_configuration dictargs).
Proof.
  unfold print_configuration. pose proof keeps_print_inputs.
  auto 20 with keeps_db.
Qed.

Lemma pure_print_configuration dictargs :
  pure_value (print_configuration dictargs) (Ok tt).
Proof.
  unfold print_configuration.
  repeat (eapply pure_bind; [first [apply pure_print | apply pure_print_inputs]|]).
  apply pure_print.
Qed.

Lemma main_unfold dictargs :
  main dictargs
  = (when (verbosity_of dictargs >=? 1)%Z (print_configuration dictargs) ;;
     replacements <- convert (arg_input dictargs) (arg_format dictargs)
                       (verbosity_of dictargs) ;;
     update_markdown_file (arg_output dictargs) replacements
       (arg_dry_run dictargs) (verbosity_of dictargs)).
Proof. reflexivity. Qed.

(** [main] up to the call of [convert]. *)
Lemma main_configuration_run dictargs w :
  exists w1,
    fs w1 = fs w
    /\ main dictargs w
       = bind (convert (arg_input dictargs) (arg_format dictargs)
                 (verbosity_of dictargs))
           (fun replacements =>
              update_markdown_file (arg_output dictargs) replacements
                (arg_dry_run dictargs) (verbosity_of dictargs)) w1.
Proof.
  destruct (run_quiet (when (verbosity_of dictargs >=? 1)%Z
                         (print_configuration dictargs)) tt w)
    as [w1 [E1 F1]].
  { apply pure_when, pure_print_configuration. }
  { apply keeps_when, keeps_print_configuration. }
  exists w1. split; [exact F1|].
  rewrite main_unfold. now rewrite (bind_ok _ _ _ _ _ E1).
Qed.

(** [main] up to the call of [update_markdown_file], where every
    recognized input is readable. *)
Lemma main_convert_run dictargs w :
  inputs_readable w (arg_input dictargs) ->
  exists w2,
    fs w2 = fs w
    /\ main dictargs w
       = update_markdown_file (arg_output dictargs)
           (fold_left (insert_link (link_of (fs w) (arg_format dictargs)))
              (arg_input dictargs) [])
           (arg_dry_run dictargs) (verbosity_of dictargs) w2.
Proof.
  intros H. destruct (main_configuration_run dictargs w) as [w1 [F1 E1]].
  destruct (convert_run (arg_input dictargs) (arg_format dictargs)
              (verbosity_of dictargs) w1) as [w2 [E2 F2]].
  { intros f Hf R. rewrite F1. now apply H. }
  exists w2. split; [congruence|].
  rewrite E1, (bind_ok _ _ _ _ _ E2). now rewrite F1.
Qed.

Lemma keeps_main_dry_run dictargs :
  arg_dry_run dictargs = true -> keeps_files (main dictargs).
Proof.
  intros Hdry. rewrite main_unfold, Hdry.
  apply keeps_bind; [apply keeps_when, keeps_print_configuration | intros _].
  apply keeps_bind; [apply keeps_convert | intros d].
  apply keeps_update_markdown_file_dry_run.
Qed.

Lemma touches_only_main dictargs :
  touches_only (arg_output dictargs) (main dictargs).
Proof.
  rewrite main_unfold.
  apply touches_only_bind;
    [apply touches_only_keeps, keeps_when, keeps_print_configuration
    | intros _].
  apply touches_only_bind;
    [apply touches_only_keeps, keeps_convert | intros d].
  apply touches_only_update_markdown_file.
Qed.

(** Inputs of which none is recognized leave the mapping as it is. *)
Lemma fold_insert_unrecognized link file_names d :
  (forall f, In f file_names -> recognized f = false) ->
  fold_left (insert_link link) file_names d = d.
Proof.
  revert d. induction file_names as [|f file_names IH]; intros d H;
    [reflexivity|].
  cbn [fold_left]. unfold insert_link at 2.
  rewrite (H f (or_introl eq_refl)). apply IH.
  intros g Hg. apply H. now right.
Qed.

(** A recognized input gives the mapping an entry. *)
Lemma fold_insert_recognized link file_names f :
  In f file_names -> recognized f = true ->
  fold_left (insert_link link) file_names [] <> [].
Proof.
  intros Hf R E.
  assert (K : In (fname_of f)
                (dict_keys (fold_left (insert_link link) file_names []))).
  { rewrite convert_keys. apply DictFacts.first_occurrences_In, in_map.
    apply filter_In. now split. }
  rewrite E in K. exact K.
Qed.

(** The document is read under an empty mapping and has a line. *)
Lemma update_markdown_file_empty_mapping_raises file_name dry_run verbosity
    w f line lines :
  fs w file_name = Some f ->
  readlines (f_text f) = line :: lines ->
  exists w1,
    update_markdown_file file_name [] dry_run verbosity w
    = (Raise (UnboundLocalError "req"), w1)
    /\ fs w1 = fs w.
Proof.
  intros Hf Hlines. unfold update_markdown_file.
  edestruct (run_quiet (when (verbosity >=? 1)%Z
                          (print (colored ("Finding Update Points in "
                                             ++ file_name ++ ":") "blue")))
               tt w) as [w1 [E1 F1]]; [auto with pure_db | auto with keeps_db|].
  rewrite (bind_ok _ _ _ _ _ E1).
  rewrite (bind_ok _ _ w1 w1 (f_text f))
    by (apply read_file_run; now rewrite F1).
  rewrite Hlines. exists w1. split; [|exact F1].
  apply bind_raise. apply update_for_empty_mapping_run.
Qed.

End MainRuns.

(** X16: with the dry-run flag [main] changes no file, whatever the other
    arguments and the files are, and whether it returns or raises. *)
Theorem main_dry_run_keeps_files {libraries : Libraries}
    (dictargs : arguments) (w : world) :
  arg_dry_run dictargs = true ->
  fs (world_after (main dictargs) w) = fs w.
Proof. intros H. now apply keeps_main_dry_run. Qed.

Lemma main_dry_run_keeps_files_witness :
  fs (world_after
        (main (libraries := example_libraries)
           {| arg_input := ["one/a.mmd"; "b.mmd"]; arg_format := "svg";
              arg_dry_run := true; arg_verbose := 3; arg_silent := false;
              arg_output := "README.md" |}) example_world)
  = example_fs.
Proof.
  exact (main_dry_run_keeps_files (libraries := example_libraries)
           {| arg_input := ["one/a.mmd"; "b.mmd"]; arg_format := "svg";
              arg_dry_run := true; arg_verbose := 3; arg_silent := false;
              arg_output := "README.md" |} example_world eq_refl).
Defined.

(** X17: the target document is the one file that [main] may change:
    every other path, the diagram files among them, holds afterwards what
    it held before, however the run ends. *)
Theorem main_changes_only_the_document {libraries : Libraries}
    (dictargs : arguments) (w : world) (path : string) :
  path <> arg_output dictargs ->
  fs (world_after (main dictargs) w) path = fs w path.
Proof. intros H. now apply touches_only_main. Qed.

Lemma main_changes_only_the_document_witness :
  "one/a.mmd" <> "README.md"
  /\ fs (world_after
           (main (libraries := example_libraries)
              {| arg_input := ["one/a.mmd"; "b.mmd"]; arg_format := "svg";
                 arg_dry_run := false; arg_verbose := 0; arg_silent := false;
                 arg_output := "README.md" |}) example_world) "one/a.mmd"
     = example_file "graph TD; A-->B;".
Proof.
  assert (H : "one/a.mmd" <> "README.md") by discriminate.
  split; [exact H|].
  exact (main_changes_only_the_document (libraries := example_libraries)
           {| arg_input := ["one/a.mmd"; "b.mmd"]; arg_format := "svg";
              arg_dry_run := false; arg_verbose := 0; arg_silent := false;
              arg_output := "README.md" |} example_world "one/a.mmd" H).
Defined.



(** X19: the whole run.  Where every recognized input can be read, one
    input at least is recognized, and the target document can be read and
    written, [main] without the dry-run flag returns, and the document
    afterwards holds, one after the other, the lines that the loop of
    [update_markdown_file] makes of its lines under the mapping that
    [convert] returns for the inputs.  The mapping and the lines are the
    same at every verbosity, so the flags [--silent] and [-v] have no
    part in what is written. *)
Theorem main_rewrites_the_document {libraries : Libraries}
    (dictargs : arguments) (w : world) (f : string) (document : file) :
  inputs_readable w (arg_input dictargs) ->
  In f (arg_input dictargs) ->
  recognized f = true ->
  fs w (arg_output dictargs) = Some document ->
  f_writable document = true ->
  arg_dry_run dictargs = false ->
  exists replacements final,
    (forall verbosity,
       value_of (convert (arg_input dictargs) (arg_format dictargs) verbosity)
         w = Ok replacements)
    /\ (forall verbosity w',
          value_of (update_for (readlines (f_text document)) 0 replacements
                      verbosity []) w' = Ok final)
    /\ value_of (main dictargs) w = Ok tt
    /\ fs (world_after (main dictargs) w)
       = fs_update (arg_output dictargs)
           {| f_text := writelines final; f_writable := true |} (fs w).
Proof.
  intros H Hf R Hdoc Hw Hdry.
  destruct (main_convert_run dictargs w H) as [w2 [F2 E2]].
  set (d := fold_left (insert_link (link_of (fs w) (arg_format dictargs)))
              (arg_input dictargs) []) in *.
  assert (Hd : d <> []) by (apply (fold_insert_recognized _ _ f Hf R)).
  exists d. eexists.
  split.
  { intros verbosity.
    destruct (convert_run (arg_input dictargs) (arg_format dictargs)
                verbosity w H) as [w1 [E1 _]].
    unfold value_of. now rewrite E1. }
  split; [intros verbosity w'; now apply update_for_value|]. cbn [app].
  destruct (proj2 (update_markdown_file_persistence (arg_output dictargs) d
                     (verbosity_of dictargs) w2) document
              (map (rewritten_line d) (readlines (f_text document))))
    as [V F].
  { now rewrite F2. }
  { exact Hw. }
  { now apply update_for_value. }
  unfold value_of, world_after in *. rewrite E2, Hdry.
  split; [exact V | now rewrite F, F2].
Qed.

Lemma main_rewrites_the_document_witness :
  inputs_readable example_world ["one/a.mmd"; "x.txt"]
  /\ value_of
       (main (libraries := example_libraries)
          {| arg_input := ["one/a.mmd"; "x.txt"]; arg_format := "svg";
             arg_dry_run := false; arg_verbose := 0; arg_silent := true;
             arg_output := "README.md" |}) example_world
     = Ok tt
  /\ fs (world_after
           (main (libraries := example_libraries)
              {| arg_input := ["one/a.mmd"; "x.txt"]; arg_format := "svg";
                 arg_dry_run := false; arg_verbose := 0; arg_silent := true;
                 arg_output := "README.md" |}) example_world) "README.md"
     = example_file
         ("# Title" ++ nl
            ++ "![a.mmd](https://kroki.io/mermaid/svg/Z3JhcGggVEQ7IEEtLT5COw==)"
            ++ nl ++ "last line").
Proof.
  assert (H : inputs_readable example_world ["one/a.mmd"; "x.txt"]).
  { intros f [<-|[<-|[]]] R; discriminate. }
  split; [exact H|].
  destruct (main_rewrites_the_document (libraries := example_libraries)
              {| arg_input := ["one/a.mmd"; "x.txt"]; arg_format := "svg";
                 arg_dry_run := false; arg_verbose := 0; arg_silent := true;
                 arg_output := "README.md" |}
              example_world "one/a.mmd"
              {| f_text := "# Title" ++ nl ++ "![b.mmd] and ![a.mmd]" ++ nl
                             ++ "last line";
                 f_writable := true |}
              H (or_introl eq_refl) eq_refl eq_refl eq_refl eq_refl)
    as [replacements [final [E1 [E2 [V F]]]]].
  split; [exact V|]. rewrite F.
  pose proof (E1 0%Z) as E1'.
  vm_compute in E1'. inversion E1'; subst replacements.
  pose proof (E2 0%Z example_world) as E2'.
  vm_compute in E2'. inversion E2'; subst final. reflexivity.
Defined.

(** X20: where no input is recognized, [convert] returns the empty
    mapping, and [main] then ends in [UnboundLocalError] as soon as the
    target document has a line: [check_line] returns [req], which no
    iteration has bound.  No file is changed. *)
Theorem main_no_recognized_input_raises {libraries : Libraries}
    (dictargs : arguments) (w : world) (document : file)
    (line : string) (lines : list string) :
  (forall f, In f (arg_input dictargs) -> recognized f = false) ->
  fs w (arg_output dictargs) = Some document ->
  readlines (f_text document) = line :: lines ->
  value_of (convert (arg_input dictargs) (arg_format dictargs)
              (verbosity_of dictargs)) w = Ok []
  /\ value_of (main dictargs) w = Raise (UnboundLocalError "req")
  /\ fs (world_after (main dictargs) w) = fs w.
Proof.
  intros Hno Hdoc Hlines.
  assert (H : inputs_readable w (arg_input dictargs)).
  { intros f Hf R. rewrite (Hno f Hf) in R. discriminate. }
  destruct (convert_run (arg_input dictargs) (arg_format dictargs)
              (verbosity_of dictargs) w H) as [w1 [E1 _]].
  destruct (main_convert_run dictargs w H) as [w2 [F2 E2]].
  rewrite (fold_insert_unrecognized _ _ _ Hno) in E1, E2.
  destruct (update_markdown_file_empty_mapping_raises (arg_output dictargs)
              (arg_dry_run dictargs) (verbosity_of dictargs) w2 document
              line lines) as [w3 [E3 F3]].
  { now rewrite F2. }
  { exact Hlines. }
  unfold value_of, world_after. rewrite E1, E2, E3.
  split; [reflexivity | split; [reflexivity | cbn; congruence]].
Qed.

Lemma main_no_recognized_input_raises_witness :
  (forall f, In f ["notes.txt"; "Makefile"] -> recognized f = false)
  /\ value_of
       (main (libraries := example_libraries)
          {| arg_input := ["notes.txt"; "Makefile"]; arg_format := "svg";
             arg_dry_run := true; arg_verbose := 0; arg_silent := false;
             arg_output := "README.md" |}) example_world
     = Raise (UnboundLocalError "req").
Proof.
  assert (H : forall f, In f ["notes.txt"; "Makefile"] -> recognized f = false).
  { intros f [<-|[<-|[]]]; reflexivity. }
  split; [exact H|].
  exact (proj1 (proj2 (main_no_recognized_input_raises
                         (libraries := example_libraries)
                         {| arg_input := ["notes.txt"; "Makefile"];
                            arg_format := "svg"; arg_dry_run := true;
                            arg_verbose := 0; arg_silent := false;
                            arg_output := "README.md" |}
                         example_world
                         {| f_text := "# Title" ++ nl
                                        ++ "![b.mmd] and ![a.mmd]" ++ nl
                                        ++ "last line";
                            f_writable := true |}
                         ("# Title" ++ nl)
                         ["![b.mmd] and ![a.mmd]" ++ nl; "last line"]
                         H eq_refl eq_refl))).
Defined.

(** X21: under [--silent], a dry run of [main] over readable inputs of
    which one at least is recognized prints no configuration, heading or
    summary, and yet it prints: a line for each skipped input with an
    empty line after them, then every line of the rewritten document, then
    the notice of the dry run and an empty line. *)
Theorem main_silent_output {libraries : Libraries}
    (dictargs : arguments) (w : world) (f : string) (document : file) :
  arg_silent dictargs = true ->
  arg_dry_run dictargs = true ->
  inputs_readable w (arg_input dictargs) ->
  In f (arg_input dictargs) ->
  recognized f = true ->
  fs w (arg_output dictargs) = Some document ->
  let skipped := filter (fun f => negb (recognized f)) (arg_input dictargs) in
  exists replacements final,
    value_of (convert (arg_input dictargs) (arg_format dictargs) (-1)) w
    = Ok replacements
    /\ value_of (update_for (readlines (f_text document)) 0 replacements (-1)
                   []) w = Ok final
    /\ value_of (main dictargs) w = Ok tt
    /\ stdout (world_after (main dictargs) w)
       = (stdout w
          ++ map (fun f =>
                    colored ("Skipping " ++ f
                               ++ " as it is not a supported diagram file")
                      "yellow") skipped
          ++ match skipped with [] => [] | _ :: _ => [""] end
          ++ final
          ++ [colored ("This was a dry run." ++ nl ++ tab
                         ++ "Please run the same command without '-d' flag")
                "yellow"; ""])%list.
Proof.
  intros Hs Hdry H Hf R Hdoc skipped.
  set (d := fold_left (insert_link (link_of (fs w) (arg_format dictargs)))
              (arg_input dictargs) []).
  assert (Hd : d <> []) by (apply (fold_insert_recognized _ _ f Hf R)).
  assert (V : verbosity_of dictargs = (-1)%Z).
  { unfold verbosity_of. now rewrite Hs. }
  exists d. eexists.
  split.
  { exact (proj1 (returns_elim _ _ _ _
                    (convert_returns (arg_input dictargs) (arg_format dictargs)
                       (-1) w H))). }
  split; [now apply update_for_value|]. cbn [app].
  assert (Hmain : returns_printing (main dictargs) w tt
                    ([] ++ (convert_output (-1) (arg_input dictargs)
                              ++ match skipped with [] => [] | _ :: _ => [""] end)
                        ++ (pass_output d (-1) 0 (readlines (f_text document))
                              ++ [dry_run_notice; ""]))%list).
  { rewrite main_unfold, V, Hdry.
    eapply returns_bind; [exact (returns_ret tt w) | intros w1 F1].
    eapply returns_bind.
    { eapply returns_output;
        [|apply (convert_returns (arg_input dictargs) (arg_format dictargs)
                   (-1) w1);
          intros g Hg Rg; rewrite F1; now apply H].
      cbn [Z.geb Z.compare andb app]. fold skipped.
      now destruct skipped. }
    intros w2 F2. rewrite F1. fold d.
    eapply returns_output;
      [|apply (update_markdown_file_dry_run_returns (arg_output dictargs) d
                 (-1) w2 document Hd); now rewrite F2, F1].
    reflexivity. }
  destruct (returns_elim _ _ _ _ Hmain) as [Vm [_ S]].
  split; [exact Vm|]. rewrite S. cbn [app].
  rewrite convert_output_quiet, pass_output_quiet by lia.
  fold skipped. rewrite <- !app_assoc. reflexivity.
Qed.

Lemma main_silent_output_witness :
  inputs_readable example_world ["x.txt"; "one/a.mmd"]
  /\ stdout (world_after
               (main (libraries := example_libraries)
                  {| arg_input := ["x.txt"; "one/a.mmd"]; arg_format := "svg";
                     arg_dry_run := true; arg_verbose := 2; arg_silent := true;
                     arg_output := "README.md" |}) example_world)
     = ["Skipping x.txt as it is not a supported diagram file"; "";
        "# Title" ++ nl;
        "![a.mmd](https://kroki.io/mermaid/svg/Z3JhcGggVEQ7IEEtLT5COw==)" ++ nl;
        "last line";
        "This was a dry run." ++ nl ++ tab
          ++ "Please run the same command without '-d' flag"; ""].
Proof.
  assert (H : inputs_readable example_world ["x.txt"; "one/a.mmd"]).
  { intros f [<-|[<-|[]]] R; discriminate. }
  split; [exact H|].
  destruct (main_silent_output (libraries := example_libraries)
              {| arg_input := ["x.txt"; "one/a.mmd"]; arg_format := "svg";
                 arg_dry_run := true; arg_verbose := 2; arg_silent := true;
                 arg_output := "README.md" |}
              example_world "one/a.mmd"
              {| f_text := "# Title" ++ nl ++ "![b.mmd] and ![a.mmd]" ++ nl
                             ++ "last line";
                 f_writable := true |}
              eq_refl eq_refl H (or_intror (or_introl eq_refl)) eq_refl eq_refl)
    as [replacements [final [E1 [E2 [_ S]]]]].
  rewrite S.
  vm_compute in E1. inversion E1; subst replacements.
  vm_compute in E2. inversion E2; subst final. reflexivity.
Defined.

(** X22: a link tells the text it was made from.  Where [zlib.decompress]
    inverts [zlib.compress], two readable files for which [convert_file]
    returns the same link have the same text, whatever the languages, the
    formats and the paths. *)
Theorem convert_file_link_determines_text {libraries : Libraries}
    (zlib_decompress : list byte -> option (list byte))
    (file1 file2 language1 language2 format1 format2 : string)
    (verbosity1 verbosity2 : Z) (w : world) (f1 f2 : file) (link : string) :
  (forall data level, zlib_decompress (zlib_compress data level) = Some data) ->
  fs w file1 = Some f1 ->
  fs w file2 = Some f2 ->
  value_of (convert_file file1 language1 format1 verbosity1) w = Ok link ->
  value_of (convert_file file2 language2 format2 verbosity2) w = Ok link ->
  f_text f1 = f_text f2.
Proof.
  intros Hzlib H1 H2 E1 E2.
  destruct (convert_file_run file1 language1 format1 verbosity1 w f1 H1)
    as [w1 [R1 _]].
  destruct (convert_file_run file2 language2 format2 verbosity2 w f2 H2)
    as [w2 [R2 _]].
  unfold value_of in E1, E2. rewrite R1 in E1. rewrite R2 in E2.
  cbn [fst] in E1, E2.
  assert (L1 := f_equal (fun r => match r with Ok x => x | Raise _ => "" end)
                  E1).
  assert (L2 := f_equal (fun r => match r with Ok x => x | Raise _ => "" end)
                  E2).
  cbn beta iota in L1, L2.
  assert (P : payload (f_text f1) = payload (f_text f2)).
  { pose proof (payload_of_link language1 format1 (f_text f1)) as P1.
    pose proof (payload_of_link language2 format2 (f_text f2)) as P2.
    rewrite L1 in P1. rewrite L2 in P2. congruence. }
  unfold payload in P.
  apply (f_equal list_byte_of_string) in P.
  rewrite !list_byte_of_string_of_list_byte in P.
  apply (f_equal Base64.urlsafe_b64decode) in P.
  rewrite !Base64Facts.urlsafe_b64_roundtrip in P.
  inversion P as [C].
  apply (f_equal zlib_decompress) in C. rewrite !Hzlib in C.
  inversion C as [B].
  apply (f_equal string_of_list_byte) in B.
  now rewrite !string_of_list_byte_of_string in B.
Qed.

Lemma convert_file_link_determines_text_witness :
  (forall data level,
     Some (zlib_compress (Libraries := example_libraries) data level)
     = Some data)
  /\ f_text {| f_text := "graph TD; A-->B;"; f_writable := true |}
     = f_text {| f_text := "graph TD; A-->B;"; f_writable := true |}.
Proof.
  split; [reflexivity|].
  exact (convert_file_link_determines_text (libraries := example_libraries)
           Some "one/a.mmd" "one/a.mmd" "mermaid" "mermaid" "svg" "svg" 1 2
           example_world
           {| f_text := "graph TD; A-->B;"; f_writable := true |}
           {| f_text := "graph TD; A-->B;"; f_writable := true |}
           "https://kroki.io/mermaid/svg/Z3JhcGggVEQ7IEEtLT5COw=="
           (fun _ _ => eq_refl) eq_refl eq_refl eq_refl eq_refl).
Defined.
